(** * sharktank / sharktuner: transform-dialect spec builder and frozen test prompts

    A shallow embedding of

    - [sharktuner/spec_builder.py]: [build_td_spec], which renders a
      transform-dialect tuning spec for a root operation and a list of
      tuning configurations;
    - [sharktank/utils/testing.py]: [get_frozen_test_text_prompts], which
      samples test prompts under a fixed seed and puts the global random
      state back.

    Python objects that are mutated in place (the root operation, the root
    logger, the global random generator) live in an explicit state that is
    threaded through a small state-and-exception monad. *)

From Stdlib Require Import Ascii ZArith.
From stdpp Require Import gmap strings list fin_maps pretty.

(** ** Python control effects: state and exceptions *)

Module Py.

Inductive exn : Type :=
| AssertionError (msg : string)
| KeyError (key : string)
| ValueError (msg : string)
| ExternalError (origin : string) (msg : string).

Inductive outcome (A : Type) : Type :=
| Return (a : A)
| Raise (e : exn).
Arguments Return {A} a.
Arguments Raise {A} e.

(** A computation over a store [S]: it ends normally with a value or with
    a raised exception, and in both cases leaves a store behind. *)
Definition M (S A : Type) : Type := S → outcome A * S.

Definition ret {S A} (a : A) : M S A := λ s, (Return a, s).

Definition raise {S A} (e : exn) : M S A := λ s, (Raise e, s).

Definition bind {S A B} (m : M S A) (k : A → M S B) : M S B :=
  λ s, match m s with
       | (Return a, s') => k a s'
       | (Raise e, s') => (Raise e, s')
       end.

#[global] Instance M_ret {S} : MRet (M S) := λ A, ret.
#[global] Instance M_bind {S} : MBind (M S) := λ A B k m, bind m k.

Definition gets {S A} (f : S → A) : M S A := λ s, (Return (f s), s).

Definition modify {S} (f : S → S) : M S unit := λ s, (Return tt, f s).

(** [if c: body] with no [else]. *)
Definition when {S} (c : bool) (body : M S unit) : M S unit :=
  if c then body else ret tt.

(** [assert c, msg] *)
Definition assert_ {S} (c : bool) (msg : string) : M S unit :=
  if c then ret tt else raise (AssertionError msg).

(** [try: body finally: handler].  The handler runs on both exits of the
    body; the body's value or exception is what leaves the statement,
    unless the handler raises itself. *)
Definition try_finally {S A} (body : M S A) (handler : M S unit) : M S A :=
  λ s, match body s with
       | (r, s') =>
           match handler s' with
           | (Return _, s'') => (r, s'')
           | (Raise e, s'') => (Raise e, s'')
           end
       end.

(** [for x in xs: acc = body(acc, x)], the loop state passed along. *)
Fixpoint for_each {S A X} (body : A → X → M S A) (xs : list X) (acc : A)
  : M S A :=
  match xs with
  | [] => ret acc
  | x :: xs' => acc' ← body acc x; for_each body xs' acc'
  end.

(** [enumerate(xs)] *)
Definition enumerate {A} (xs : list A) : list (nat * A) := imap pair xs.

(** [str(i)] for a list position. *)
Definition str_nat (i : nat) : string := pretty i.

Definition nl : string := String "010" "".
Definition dquote : string := String "034" "".

(** [sep.join(parts)] *)
Definition join (sep : string) (parts : list string) : string :=
  String.concat sep parts.

(** [s.startswith(prefix)] *)
Fixpoint startswith (prefix s : string) : bool :=
  match prefix, s with
  | EmptyString, _ => true
  | String a prefix', String b s' =>
      if Ascii.eqb a b then startswith prefix' s' else false
  | String _ _, EmptyString => false
  end.

(** The number of positions of [s] at which [needle] starts. *)
Fixpoint occurrences (needle s : string) : nat :=
  (if startswith needle s then 1 else 0)
  + match s with
    | EmptyString => 0
    | String _ s' => occurrences needle s'
    end.

(** [c in s] for a single character. *)
Fixpoint has_char (c : ascii) (s : string) : bool :=
  match s with
  | EmptyString => false
  | String a s' => Ascii.eqb a c || has_char c s'
  end.

(** [needle in s] *)
Definition contains (needle s : string) : bool :=
  bool_decide (0 < occurrences needle s).

End Py.


(** ** [sharktuner/spec_builder.py] *)

Module SpecBuilder.
Import Py.

Definition ROOT_OP_ATTR_NAME : string := "root_op".

(** The concrete attribute kinds of the compiler's object model that the
    builder tells apart: [ir.UnitAttr] against every other kind. *)
Inductive Attribute : Type :=
| UnitAttr
| IntegerAttr (value : Z)
| StringAttr (value : string)
| OpaqueAttr (text : string).

(** [isinstance(attr, ir.UnitAttr)] *)
Definition isinstance_UnitAttr (attr : Attribute) : bool :=
  match attr with
  | UnitAttr => true
  | _ => false
  end.

(** An [ir.Value] is a handle: two values are equal (and hash alike) exactly
    when they are the same SSA value of the module. *)
Definition Value : Type := positive.

(** An [ir.Operation]: the attribute dictionary [op.opview.attributes] (kept
    sorted by key in the compiler, hence a finite map), the operand list
    [op.operands], and the rest of the operation. *)
Record Operation : Type := mkOperation {
  op_name : string;
  attributes : gmap string Attribute;
  operands : list Value;
}.

Definition with_attributes (f : gmap string Attribute → gmap string Attribute)
    (op : Operation) : Operation :=
  {| op_name := op_name op;
     attributes := f (attributes op);
     operands := operands op |}.

(** [common.TuningConfiguration]: a name and an attribute. *)
Record TuningConfiguration : Type := mkTuningConfiguration {
  name : string;
  configuration : Attribute;
}.

(** The capabilities of the compiler bindings the builder relies on: the
    printers and the parser.  They are not part of this repository. *)
Class IRBindings : Type := {
  IRContext : Type;
  IRModule : Type;
  (** [str(op)] *)
  str_op : Operation → string;
  (** [str(attr)], used when an attribute is formatted into text *)
  str_attr : Attribute → string;
  (** [value.get_name()] *)
  get_name : Value → string;
  (** [str(value.type)] *)
  str_type : Value → string;
  (** [ir.Module.parse(text, context)]; [None] when the parser rejects the
      text *)
  parse : string → IRContext → option IRModule;
}.

(** What a call can touch: the operation object it was handed, and the
    records sent to the root logger. *)
Record world : Type := mkWorld {
  live_op : Operation;
  warnings : list string;
}.

Definition REPEATED_OPERAND_WARNING : string :=
  "Root op has repeated operand. This can cause failure to match in the resulting TD spec at compile time.".

Section Builder.
Context `{IR : !IRBindings}.

(** [name in op.opview.attributes] *)
Definition attr_contains (key : string) : M world bool :=
  gets (λ w, bool_decide (is_Some (attributes (live_op w) !! key))).

(** [op.opview.attributes[name]] *)
Definition attr_getitem (key : string) : M world Attribute :=
  λ w, match attributes (live_op w) !! key with
       | Some attr => (Return attr, w)
       | None => (Raise (KeyError key), w)
       end.

(** [del op.opview.attributes[name]] *)
Definition attr_delitem (key : string) : M world unit :=
  λ w, match attributes (live_op w) !! key with
       | Some _ =>
           (Return tt,
            {| live_op := with_attributes (delete key) (live_op w);
               warnings := warnings w |})
       | None => (Raise (KeyError key), w)
       end.

(** [op.opview.attributes[name] = attr] *)
Definition attr_setitem (key : string) (attr : Attribute) : M world unit :=
  modify (λ w, {| live_op := with_attributes (insert key attr) (live_op w);
                  warnings := warnings w |}).

(** [logging.warning(msg)] *)
Definition logging_warning (msg : string) : M world unit :=
  modify (λ w, {| live_op := live_op w; warnings := warnings w ++ [msg] |}).

(** [ir.Module.parse(text, context)] *)
Definition Module_parse (text : string) (context : IRContext)
  : M world IRModule :=
  match parse text context with
  | Some m => ret m
  | None => raise (ExternalError "ir.Module.parse" text)
  end.

(** The body of the loop over [op.operands]; the loop state is
    [(bbargs, captured_values)]. *)
Definition operand_step (st : list string * gset Value) (operand : Value)
  : M world (list string * gset Value) :=
  let '(bbargs, captured_values) := st in
  if decide (operand ∈ captured_values) then
    logging_warning REPEATED_OPERAND_WARNING;;
    mret (bbargs, captured_values)
  else
    let ssa_name := get_name operand in
    let operand_type := str_type operand in
    mret (bbargs ++ [ssa_name +:+ ": " +:+ operand_type],
          captured_values ∪ {[operand]}).

(** The SSA variable of the [i]-th configuration, [f"%{config.name}_{i}"]. *)
Definition config_var (i : nat) (config : TuningConfiguration) : string :=
  "%" +:+ name config +:+ "_" +:+ str_nat i.

Definition config_line (i : nat) (config : TuningConfiguration) : string :=
  config_var i config +:+ " = transform.param.constant "
    +:+ str_attr (configuration config) +:+ " -> !transform.any_param".

(** The loop over [enumerate(config_list)]; the loop state is
    [(config_lines, yield_vars)]. *)
Definition config_loop (config_list : list TuningConfiguration)
  : list string * list string :=
  foldl (λ '(config_lines, yield_vars) '(i, config),
           (config_lines ++ [config_line i config],
            yield_vars ++ [config_var i config]))
        ([], []) (enumerate config_list).

Definition annotation_arg (i : nat) : string :=
  "%cfg_" +:+ str_nat i +:+ ": !transform.any_param {transform.readonly}".

Definition annotation_line (i : nat) (config : TuningConfiguration) : string :=
  "                transform.annotate %op " +:+ dquote +:+ name config
    +:+ dquote +:+ " = %cfg_" +:+ str_nat i
    +:+ " : !transform.any_op, !transform.any_param".

(** The three named sequences of the [spec_text] template, each from its
    [transform.named_sequence] keyword to its closing brace. *)
Definition annotation_sequence (annotation_args annotation_lines : string)
  : string :=
  "transform.named_sequence @apply_op_config(%op: !transform.any_op {transform.readonly}, "
    +:+ annotation_args +:+ ") {" +:+ nl
  +:+ "        " +:+ annotation_lines +:+ nl
  +:+ "            transform.yield" +:+ nl
  +:+ "        }".

Definition matcher_sequence
    (func_name yield_types bbargs_str root_operation config_block yield_list
       : string) : string :=
  "transform.named_sequence @" +:+ func_name
    +:+ "(%cont: !transform.any_op {transform.readonly})" +:+ nl
  +:+ "            -> (" +:+ yield_types +:+ ") {" +:+ nl
  +:+ "            %ins, %outs = transform.iree.match.cast_compatible_dag_from_root %cont {" +:+ nl
  +:+ "              ^bb0(" +:+ bbargs_str +:+ "):" +:+ nl
  +:+ "              " +:+ root_operation +:+ nl
  +:+ "            } : (!transform.any_op) -> (!transform.any_value, !transform.any_value)" +:+ nl
  +:+ "            " +:+ config_block +:+ nl
  +:+ "            transform.yield " +:+ yield_list +:+ " : " +:+ yield_types +:+ nl
  +:+ "        }".

Definition entry_point_sequence (func_name : string) : string :=
  "transform.named_sequence" +:+ nl
  +:+ "        @__kernel_config(%variant_op: !transform.any_op {transform.consumed}) -> !transform.any_op" +:+ nl
  +:+ "            attributes { iree_codegen.tuning_spec_entrypoint } {" +:+ nl
  +:+ "            %res = transform.foreach_match in %variant_op" +:+ nl
  +:+ "                @" +:+ func_name +:+ " -> @apply_op_config" +:+ nl
  +:+ "            : (!transform.any_op) -> !transform.any_op" +:+ nl
  +:+ "            transform.yield %res : !transform.any_op" +:+ nl
  +:+ "        }".

(** The f-string [spec_text]. *)
Definition spec_text_template
    (annotation_args annotation_lines func_name yield_types bbargs_str
       root_operation config_block yield_list : string) : string :=
  "        module attributes { transform.with_named_sequence, iree_codegen.tuning_spec_with_default_entrypoint } {" +:+ nl
  +:+ "        // Annotation Transform" +:+ nl
  +:+ "        " +:+ annotation_sequence annotation_args annotation_lines +:+ nl
  +:+ nl
  +:+ "        // Custom Op Matcher" +:+ nl
  +:+ "        " +:+ matcher_sequence func_name yield_types bbargs_str
                      root_operation config_block yield_list +:+ nl
  +:+ nl
  +:+ "        // Entry Point" +:+ nl
  +:+ "        " +:+ entry_point_sequence func_name +:+ nl
  +:+ "    }".

Definition build_td_spec (context : IRContext)
    (config_list : list TuningConfiguration) (func_name : string)
  : M world IRModule :=
  has_root_attr ← attr_contains ROOT_OP_ATTR_NAME;
  when has_root_attr (
    attr ← attr_getitem ROOT_OP_ATTR_NAME;
    assert_ (isinstance_UnitAttr attr)
            "expected 'root_op' attr to be a unit attr");;
  when has_root_attr (attr_delitem ROOT_OP_ATTR_NAME);;
  root_operation ← gets (λ w, str_op (live_op w));
  when has_root_attr (attr_setitem ROOT_OP_ATTR_NAME UnitAttr);;
  op_operands ← gets (λ w, operands (live_op w));
  '(bbargs, _) ← for_each operand_step op_operands ([], ∅);
  let bbargs_str := join ", " bbargs in
  let '(config_lines, yield_vars) := config_loop config_list in
  let config_block := join (nl +:+ "                ") config_lines in
  let yield_list := join ", " ("%cont" :: yield_vars) in
  let yield_types :=
    join ", " ("!transform.any_op"
                 :: replicate (length yield_vars) "!transform.any_param") in
  let annotation_args :=
    join ", " (annotation_arg <$> seq 0 (length config_list)) in
  let annotation_lines :=
    join nl ((λ '(i, config), annotation_line i config)
               <$> enumerate config_list) in
  let spec_text :=
    spec_text_template annotation_args annotation_lines func_name yield_types
                       bbargs_str root_operation config_block yield_list in
  Module_parse spec_text context.

(** *** Closed forms used to state what a call does *)

Definition bbarg_decl (operand : Value) : string :=
  get_name operand +:+ ": " +:+ str_type operand.

(** The operands the loop declares: those not seen before, in order. *)
Fixpoint first_occurrences (seen : gset Value) (ops : list Value)
  : list Value :=
  match ops with
  | [] => []
  | operand :: ops' =>
      if decide (operand ∈ seen) then first_occurrences seen ops'
      else operand :: first_occurrences (seen ∪ {[operand]}) ops'
  end.

(** The number of operands the loop skips with a warning. *)
Fixpoint repeated_operands (seen : gset Value) (ops : list Value) : nat :=
  match ops with
  | [] => 0
  | operand :: ops' =>
      if decide (operand ∈ seen) then S (repeated_operands seen ops')
      else repeated_operands (seen ∪ {[operand]}) ops'
  end.

(** The operation as it is printed: without the root marker. *)
Definition strip_root_attr (op : Operation) : Operation :=
  with_attributes (delete ROOT_OP_ATTR_NAME) op.

Definition yield_types_of (n : nat) : string :=
  join ", " ("!transform.any_op" :: replicate n "!transform.any_param").

(** The text handed to the parser when the call gets that far. *)
Definition rendered_text (op : Operation)
    (config_list : list TuningConfiguration) (func_name : string) : string :=
  spec_text_template
    (join ", " (annotation_arg <$> seq 0 (length config_list)))
    (join nl (imap annotation_line config_list))
    func_name
    (yield_types_of (length config_list))
    (join ", " (bbarg_decl <$> first_occurrences ∅ (operands op)))
    (str_op (strip_root_attr op))
    (join (nl +:+ "                ") (imap config_line config_list))
    (join ", " ("%cont" :: imap config_var config_list)).

(** The store a call leaves behind when it gets to the parser: the same
    operation, and one warning more per repeated operand. *)
Definition world_after (w : world) : world :=
  {| live_op := live_op w;
     warnings :=
       warnings w
       ++ replicate (repeated_operands ∅ (operands (live_op w)))
                    REPEATED_OPERAND_WARNING |}.

(** The text with every hole of the template left empty: what the template
    itself contributes. *)
Definition template_frame : string :=
  spec_text_template "" "" "" "" "" "" "" "".

(** A named sequence as the compiler reads one: the keyword, white space,
    [@name], then signature, attributes and body. *)
Definition named_sequence (space name rest : string) : string :=
  "transform.named_sequence" +:+ space +:+ "@" +:+ name +:+ rest.

(** A module that consists of named sequences, each under a comment line. *)
Definition sequence_module (sequences : list (string * string)) : string :=
  "        module attributes { transform.with_named_sequence, iree_codegen.tuning_spec_with_default_entrypoint } {" +:+ nl
  +:+ join (nl +:+ nl)
        ((λ '(comment, sequence),
            "        // " +:+ comment +:+ nl +:+ "        " +:+ sequence)
           <$> sequences)
  +:+ nl +:+ "    }".

(** Signature and body of an entry point that runs [matcher] over every
    match in the payload, applies [apply_op_config] to each, and yields the
    result. *)
Definition foreach_match_entry (matcher : string) : string :=
  "(%variant_op: !transform.any_op {transform.consumed}) -> !transform.any_op" +:+ nl
  +:+ "            attributes { iree_codegen.tuning_spec_entrypoint } {" +:+ nl
  +:+ "            %res = transform.foreach_match in %variant_op" +:+ nl
  +:+ "                @" +:+ matcher +:+ " -> @apply_op_config" +:+ nl
  +:+ "            : (!transform.any_op) -> !transform.any_op" +:+ nl
  +:+ "            transform.yield %res : !transform.any_op" +:+ nl
  +:+ "        }".


(** The marker is absent, or it is the unit attribute. *)
Definition root_attr_ok (op : Operation) : Prop :=
  attributes op !! ROOT_OP_ATTR_NAME = None
  ∨ attributes op !! ROOT_OP_ATTR_NAME = Some UnitAttr.

End Builder.
End SpecBuilder.

(** ** [sharktank/utils/testing.py]: the frozen test prompts *)

Module Testing.
Import Py.

(** The module-level generator of [random] and the dataset loader; neither
    is part of this repository.  The store of a computation is the state of
    the global generator. *)
Class RandomModule : Type := {
  rng_state : Type;
  (** the state [random.seed(a)] installs *)
  seeded_state : Z → rng_state;
  (** [random.sample(population, k)] *)
  random_sample : list string → Z → M rng_state (list string);
  (** [load_dataset("wikitext", "wikitext-2-raw-v1", split="test")["text"]] *)
  load_dataset_text : M rng_state (list string);
}.

Section Prompts.
Context `{RM : !RandomModule}.

(** [random.getstate()] *)
Definition random_getstate : M rng_state rng_state := gets id.

(** [random.setstate(state)] *)
Definition random_setstate (state : rng_state) : M rng_state unit :=
  modify (λ _, state).

(** [random.seed(a)] *)
Definition random_seed (a : Z) : M rng_state unit :=
  modify (λ _, seeded_state a).

Definition get_random_test_text_prompts (num_prompts : Z)
    (min_prompt_length : option Z) : M rng_state (list string) :=
  prompts ← load_dataset_text;
  let prompts :=
    match min_prompt_length with
    | Some min_len =>
        filter (λ p, (min_len ≤ Z.of_nat (String.length p))%Z) prompts
    | None => prompts
    end in
  random_sample prompts num_prompts.

Definition get_frozen_test_text_prompts (num_prompts : Z)
    (min_prompt_length : option Z) : M rng_state (list string) :=
  orig_rng_state ← random_getstate;
  try_finally
    (random_seed 13910398;;
     get_random_test_text_prompts num_prompts min_prompt_length)
    (random_setstate orig_rng_state).

End Prompts.
End Testing.

(** ** A small stand-in for the compiler bindings

    A printer that shows the operation name, the operand names and the
    attribute dictionary, and a parser that accepts every text.  It is used
    to run the definitions above on concrete operations. *)

Module Fixture.
Import Py SpecBuilder.

Definition show_attr (attr : Attribute) : string :=
  match attr with
  | UnitAttr => "unit"
  | IntegerAttr value => pretty value
  | StringAttr value => dquote +:+ value +:+ dquote
  | OpaqueAttr text => text
  end.

Definition show_named_attr (entry : string * Attribute) : string :=
  match entry.2 with
  | UnitAttr => entry.1
  | attr => entry.1 +:+ " = " +:+ show_attr attr
  end.

Definition show_value (v : Value) : string :=
  match v with
  | 1%positive => "%a"
  | 2%positive => "%b"
  | _ => "%arg" +:+ pretty v
  end.

Definition show_type (v : Value) : string :=
  match v with
  | 2%positive => "f32"
  | _ => "i32"
  end.

Definition show_op (op : Operation) : string :=
  op_name op +:+ "(" +:+ join ", " (show_value <$> operands op) +:+ ")"
  +:+ (if decide (attributes op = ∅) then ""
       else " {" +:+ join ", " (show_named_attr <$> map_to_list (attributes op))
            +:+ "}").

#[global] Instance bindings : IRBindings := {|
  IRContext := unit;
  IRModule := string;
  str_op := show_op;
  str_attr := show_attr;
  get_name := show_value;
  str_type := show_type;
  parse := λ text _, Some text;
|}.

(** The root operation with operands [a: i32, b: f32], carrying the marker. *)
Definition marked_op : Operation :=
  {| op_name := "linalg.matmul";
     attributes := {[ ROOT_OP_ATTR_NAME := UnitAttr ]};
     operands := [1; 2]%positive |}.

(** The same operation without the marker. *)
Definition plain_op : Operation :=
  {| op_name := "linalg.matmul";
     attributes := ∅;
     operands := [1; 2]%positive |}.

(** A marker of the wrong kind. *)
Definition mismarked_op : Operation :=
  {| op_name := "linalg.matmul";
     attributes := {[ ROOT_OP_ATTR_NAME := StringAttr "yes" ]};
     operands := [1; 2]%positive |}.

(** The first operand is used twice. *)
Definition square_op : Operation :=
  {| op_name := "arith.mulf";
     attributes := {[ ROOT_OP_ATTR_NAME := UnitAttr ]};
     operands := [1; 1]%positive |}.

Definition fresh_world (op : Operation) : world :=
  {| live_op := op; warnings := [] |}.

(** The text a call on a fresh store returns (the parser of this fixture
    hands the text back), or the empty string when the call raises. *)
Definition emitted_text (op : Operation)
    (config_list : list TuningConfiguration) (func_name : string) : string :=
  match (build_td_spec tt config_list func_name (fresh_world op)).1 with
  | Return text => text
  | Raise _ => ""
  end.

Definition tile_and_vector : list TuningConfiguration :=
  [ {| name := "tile_size"; configuration := IntegerAttr 32 |};
    {| name := "vector_size"; configuration := IntegerAttr 4 |} ].

Definition twice_x : list TuningConfiguration :=
  [ {| name := "x"; configuration := IntegerAttr 1 |};
    {| name := "x"; configuration := IntegerAttr 2 |} ].

End Fixture.

(** ** A small stand-in for the random generator and the dataset

    The generator state is a number, advanced by a linear congruential step
    at each draw; a sample is a rotation of the population cut to size. *)

Module PromptFixture.
Import Py Testing.

Definition lcg_next (state : Z) : Z :=
  ((state * 6364136223846793005 + 1442695040888963407) `mod` 2 ^ 64)%Z.

Definition lcg_sample (population : list string) (k : Z)
  : M Z (list string) :=
  λ state,
    if decide (0 ≤ k ≤ Z.of_nat (length population))%Z then
      (Return (take (Z.to_nat k)
                 (rotate (Z.to_nat (state `mod` 7)) population)),
       lcg_next state)
    else
      (Raise (ValueError "Sample larger than population or is negative"),
       state).

Definition wikitext : list string :=
  [ "";
    " = Robert Boulter = ";
    " Robert Boulter is an English film , television and theatre actor . ";
    " In 2006 , Boulter starred alongside Whishaw in the play Citizenship . ";
    " = Du Fu = " ].

#[global] Instance random_module : RandomModule := {|
  rng_state := Z;
  seeded_state := λ a, a;
  random_sample := lcg_sample;
  load_dataset_text := ret wikitext;
|}.

End PromptFixture.

(** ** [sharktank/utils/testing.py]: the cached prompts *)

Module TestPrompts.
Import Py Testing.

Section Cache.
Context `{RM : !RandomModule}.

(** The module-level state a call can touch: the global generator and the
    global [_test_prompts]. *)
Record prompt_store : Type := mkPromptStore {
  rng : rng_state;
  _test_prompts : option (list string);
}.

(** A computation on the generator, run inside the module. *)
Definition on_rng {A} (m : M rng_state A) : M prompt_store A :=
  λ st, match m (rng st) with
        | (r, g) => (r, {| rng := g; _test_prompts := _test_prompts st |})
        end.

(** The value returned is the global, [None] or a list. *)
Definition get_test_prompts : M prompt_store (option (list string)) :=
  cached ← gets _test_prompts;
  (if cached is None then
     prompts ← on_rng (get_frozen_test_text_prompts 16 (Some 50%Z));
     modify (λ st, {| rng := rng st; _test_prompts := Some prompts |})
   else mret tt);;
  gets _test_prompts.

End Cache.
End TestPrompts.

(** ** [sharktank/utils/testing.py]: assertions on containers *)

Module Asserts.
Import Py.

(** ** [assert_iterables_equal] *)

Section Iterables.
Context {A : Type} `{!EqDecision A}.
(** [f"{v}"] for an element *)
Variable fmt : A → string.

(** [operator.eq] *)
Definition operator_eq (a b : A) : bool := bool_decide (a = b).

(** The loop over [enumerate(zip(iterable1, iterable2, strict=True))],
    from index [i] on.  [zip] notices a length mismatch only when the
    shorter argument runs out. *)
Fixpoint iterables_loop (elements_equal : A → A → bool) (i : nat)
    (iterable1 iterable2 : list A) : outcome unit :=
  match iterable1, iterable2 with
  | [], [] => Return tt
  | [], _ :: _ =>
      Raise (ValueError "zip() argument 2 is longer than argument 1")
  | _ :: _, [] =>
      Raise (ValueError "zip() argument 2 is shorter than argument 1")
  | v1 :: rest1, v2 :: rest2 =>
      if elements_equal v1 v2 then
        iterables_loop elements_equal (S i) rest1 rest2
      else
        Raise (AssertionError
                 ("Iterables not equal at index " +:+ str_nat i
                    +:+ " for elements " +:+ fmt v1 +:+ " and " +:+ fmt v2))
  end.

Definition assert_iterables_equal (iterable1 iterable2 : list A)
    (elements_equal : option (A → A → bool)) : outcome unit :=
  let elements_equal := default operator_eq elements_equal in
  iterables_loop elements_equal 0 iterable1 iterable2.

End Iterables.

(** ** [assert_dicts_equal] *)

Section Dicts.
Context {K V : Type} `{!EqDecision K, !EqDecision V}.
(** [f"{dict}"], [f"{k}"] and [f"{v}"] *)
Variable fmt_dict : list (K * V) → string.
Variable fmt_key : K → string.
Variable fmt_value : V → string.

(** A [dict] is the list of its items in insertion order; its keys are
    pairwise distinct.  [d[k]], with [None] for a missing key. *)
Fixpoint dict_get (k : K) (d : list (K * V)) : option V :=
  match d with
  | [] => None
  | (k', v) :: d' => if decide (k' = k) then Some v else dict_get k d'
  end.

(** The loop over [dict1.items()]. *)
Fixpoint dicts_loop (values_equal : V → V → bool) (dict1_all : list (K * V))
    (items : list (K * V)) (dict2 : list (K * V)) : outcome unit :=
  match items with
  | [] => Return tt
  | (k, v1) :: items' =>
      match dict_get k dict2 with
      | None =>
          Raise (AssertionError
                   ("Dictionaries " +:+ fmt_dict dict1_all +:+ " and "
                      +:+ fmt_dict dict2 +:+ " not equal. Key " +:+ fmt_key k
                      +:+ " not found in " +:+ fmt_dict dict2))
      | Some v2 =>
          if values_equal v1 v2 then
            dicts_loop values_equal dict1_all items' dict2
          else
            Raise (AssertionError
                     ("Dictionaries " +:+ fmt_dict dict1_all +:+ " and "
                        +:+ fmt_dict dict2 +:+ " not equal for key "
                        +:+ fmt_key k +:+ ". Values " +:+ fmt_value v1
                        +:+ " and " +:+ fmt_value v2 +:+ " not equal"))
      end
  end.

Definition assert_dicts_equal (dict1 dict2 : list (K * V))
    (values_equal : option (V → V → bool)) : outcome unit :=
  let values_equal := default operator_eq values_equal in
  if bool_decide (length dict1 = length dict2) then
    dicts_loop values_equal dict1 dict1 dict2
  else
    Raise (AssertionError
             ("Dictionaries not equal. " +:+ fmt_dict dict1 +:+ " and "
                +:+ fmt_dict dict2 +:+ " have different number of elements "
                +:+ str_nat (length dict1) +:+ " != "
                +:+ str_nat (length dict2))).

End Dicts.
End Asserts.

(** ** [sharktank/utils/testing.py]: debug flags, marks and decorators *)

Module TestSupport.
Import Py.

(** *** [override_debug_flags] *)

Section DebugFlags.
(** The values a flag can hold, and [f"{v}"]. *)
Context {V : Type}.
Variable fmt_value : V → string.
(** The text of the [AttributeError] for a flag that does not exist. *)
Variable no_attribute : string → string.

(** What the body of the [with] statement can touch: the attributes of the
    [flags] object and the standard output. *)
Record globals : Type := mkGlobals {
  flags : gmap string V;
  stdout : list string;
}.

(** The frame of the generator: the globals and its local [restore],
    a [dict] kept as the list of its items in insertion order. *)
Record frame : Type := mkFrame {
  outer : globals;
  restore : list (string * V);
}.

(** [print(line)] *)
Definition print (line : string) : M frame unit :=
  modify (λ fr, {| outer := {| flags := flags (outer fr);
                               stdout := stdout (outer fr) ++ [line] |};
                   restore := restore fr |}).

(** [getattr(flags, k)] *)
Definition getattr_flags (k : string) : M frame V :=
  λ fr, match flags (outer fr) !! k with
        | Some v => (Return v, fr)
        | None => (Raise (ExternalError "AttributeError" (no_attribute k)), fr)
        end.

(** [setattr(flags, k, v)] *)
Definition setattr_flags (k : string) (v : V) : M frame unit :=
  modify (λ fr, {| outer := {| flags := <[k:=v]> (flags (outer fr));
                               stdout := stdout (outer fr) |};
                   restore := restore fr |}).

(** [d[k] = v] on the item list of a [dict]: an existing key keeps its
    place. *)
Fixpoint dict_set (k : string) (v : V) (d : list (string * V))
  : list (string * V) :=
  match d with
  | [] => [(k, v)]
  | (k', v') :: d' =>
      if decide (k' = k) then (k, v) :: d' else (k', v') :: dict_set k v d'
  end.

(** [restore[k] = current_value] *)
Definition restore_setitem (k : string) (v : V) : M frame unit :=
  modify (λ fr, {| outer := outer fr; restore := dict_set k v (restore fr) |}).

(** The body of the [with] statement, run while the generator is suspended
    at its [yield]. *)
Definition suspended {A} (body : M globals A) : M frame A :=
  λ fr, match body (outer fr) with
        | (r, g) => (r, {| outer := g; restore := restore fr |})
        end.

Definition override_step (_ : unit) (item : string * V) : M frame unit :=
  let '(k, v) := item in
  print ("Overriding debug flag " +:+ k +:+ " = " +:+ fmt_value v);;
  current_value ← getattr_flags k;
  restore_setitem k current_value;;
  setattr_flags k v.

Definition restore_step (_ : unit) (item : string * V) : M frame unit :=
  let '(k, v) := item in
  print ("Restoring debug flag " +:+ k +:+ " = " +:+ fmt_value v);;
  setattr_flags k v.

(** [with override_debug_flags(flag_updates): body].  The generator runs up
    to its [yield] on entry; the body runs; the [finally] block runs when
    the generator is resumed or the body's exception is thrown into it, and
    also when the loop before the [yield] raises. *)
Definition override_debug_flags {A} (flag_updates : list (string * V))
    (body : M globals A) : M globals A :=
  λ g,
    match
      try_finally
        (for_each override_step flag_updates tt;; suspended body)
        (items ← gets restore; for_each restore_step items tt)
        {| outer := g; restore := [] |}
    with
    | (r, fr) => (r, outer fr)
    end.

(** *** Closed forms used to state what the statement does *)

(** The attributes after [setattr] of every item in turn. *)
Definition overridden (items : list (string * V)) (attrs : gmap string V)
  : gmap string V :=
  foldl (λ attrs '(k, v), <[k:=v]> attrs) attrs items.

(** The items [restore] holds after the loop: every overridden flag that
    exists, with the value it had. *)
Definition saved (flag_updates : list (string * V)) (attrs : gmap string V)
  : list (string * V) :=
  omap (λ '(k, _), (λ v, (k, v)) <$> attrs !! k) flag_updates.

Definition override_lines (flag_updates : list (string * V)) : list string :=
  (λ '(k, v), "Overriding debug flag " +:+ k +:+ " = " +:+ fmt_value v)
    <$> flag_updates.

Definition restore_lines (items : list (string * V)) : list string :=
  (λ '(k, v), "Restoring debug flag " +:+ k +:+ " = " +:+ fmt_value v)
    <$> items.

End DebugFlags.

(** *** The [is_cpu_win] mark *)

(** The values the condition of a [skipif] mark is built from here:
    a string for pytest to evaluate, or a boolean. *)
Inductive condition : Type :=
| CondStr (text : string)
| CondBool (b : bool).

(** Python truth value. *)
Definition truthy (c : condition) : bool :=
  match c with
  | CondStr text => negb (bool_decide (text = ""))
  | CondBool b => b
  end.

(** [x and y] *)
Definition py_and (x y : condition) : condition :=
  if truthy x then y else x.

Definition is_cpu_condition : string :=
  "exec('from sharktank.utils.testing import is_iree_hal_target_device_cpu') or "
  +:+ "is_iree_hal_target_device_cpu(config.getoption('iree_hal_target_device'))".

Definition is_not_cpu_condition : string :=
  "exec('from sharktank.utils.testing import is_iree_hal_target_device_cpu') or "
  +:+ "not is_iree_hal_target_device_cpu(config.getoption('iree_hal_target_device'))".

(** The argument of [pytest.mark.skipif] in [is_cpu]. *)
Definition is_cpu_skipif : condition := CondStr is_not_cpu_condition.

(** The argument of [pytest.mark.skipif] in [is_cpu_win], for the value
    [platform] of [sys.platform]. *)
Definition is_cpu_win_skipif (platform : string) : condition :=
  py_and (CondStr is_cpu_condition)
         (CondBool (bool_decide (platform = "win32"))).

(** [is_iree_hal_target_device_cpu] *)
Definition is_iree_hal_target_device_cpu (v : string) : bool :=
  startswith "local" v || bool_decide (v = "llvm-cpu").

(** *** [xfail] *)

Section Xfail.
Context {S A : Type}.
(** [isinstance(ex, Exception)], [str(ex)], and the truth value of
    [re.search(pattern, text)], which raises on a malformed pattern. *)
Variable is_Exception : exn → bool.
Variable str_exn : exn → string.
Variable re_search : string → string → outcome bool.

Definition _eval_condition (c : option condition) : outcome bool :=
  match c with
  | None => Return true
  | Some (CondBool b) => Return b
  | Some (CondStr _) =>
      Raise (ExternalError "NotImplementedError"
               "TODO: implement string condition evaluation the same way as in pytest")
  end.

(** The test in the handler:
    [not _eval_condition(condition) or match is None or re.search(match, str(ex))] *)
Definition reraise_test (condition : option condition)
    (pattern : option string) (ex : exn) : outcome bool :=
  match _eval_condition condition with
  | Raise e => Raise e
  | Return c =>
      if negb c then Return true
      else match pattern with
           | None => Return true
           | Some pattern => re_search pattern (str_exn ex)
           end
  end.

(** The wrapper that [xfail(condition, match=pattern)] puts around
    [test_fn]. *)
Definition xfail_wrapper (condition : option condition)
    (pattern : option string) (test_fn : M S A) : M S A :=
  λ s,
    match test_fn s with
    | (Return a, s') => (Return a, s')
    | (Raise ex, s') =>
        if is_Exception ex then
          match reraise_test condition pattern ex with
          | Raise e => (Raise e, s')
          | Return true => (Raise ex, s')
          | Return false =>
              (Raise (ExternalError "pytest.fail"
                        ("Failed to match error " +:+ dquote +:+ str_exn ex
                           +:+ dquote +:+ " against expected match "
                           +:+ dquote +:+ default "" pattern +:+ dquote)),
               s')
          end
        else (Raise ex, s')
    end.

End Xfail.
End TestSupport.

(** ** A dataset with enough long paragraphs for the cached prompts *)

Module LongPromptFixture.
Import Py Testing.

Definition paragraph (i : nat) : string :=
  " A paragraph of the test split , long enough to be kept , number "
    +:+ pretty i +:+ " . ".

Definition wikitext : list string :=
  "" :: " = Heading = " :: (paragraph <$> seq 0 20).

Definition random_module : RandomModule := {|
  rng_state := Z;
  seeded_state := λ a, a;
  random_sample := PromptFixture.lcg_sample;
  load_dataset_text := ret wikitext;
|}.

(** The module before the first call: nothing cached, generator state 42. *)
Definition fresh_store : TestPrompts.prompt_store (RM := random_module) :=
  @TestPrompts.mkPromptStore random_module 42%Z None.

(** The same over the small dataset, which has too few paragraphs. *)
Definition small_store
  : TestPrompts.prompt_store (RM := PromptFixture.random_module) :=
  @TestPrompts.mkPromptStore PromptFixture.random_module 42%Z None.

End LongPromptFixture.

(** ** Sample flags, tests and containers *)

Module SupportFixture.
Import Py TestSupport.

(** The flags object with two attributes, and the standard output empty. *)
Definition debug_globals : globals (V := nat) :=
  {| flags := {[ "trace_level" := 0; "max_items" := 7 ]}; stdout := [] |}.

Definition no_attribute (k : string) : string :=
  "'DebugFlags' object has no attribute '" +:+ k +:+ "'".

(** A body that reads a flag and prints. *)
Definition read_trace_level : M (globals (V := nat)) nat :=
  λ g, (Return (default 0 (flags g !! "trace_level")),
        {| flags := flags g; stdout := stdout g ++ ["body"] |}).

(** A test that returns and a test that raises. *)
Definition passing_test : M unit nat := ret 3.

Definition failing_test : M unit nat :=
  raise (ValueError "shape mismatch in matmul").

Definition every_exn (ex : exn) : bool := true.

Definition exn_text (ex : exn) : string :=
  match ex with
  | AssertionError msg => msg
  | KeyError key => "'" +:+ key +:+ "'"
  | ValueError msg => msg
  | ExternalError _ msg => msg
  end.

(** A search that finds plain substrings. *)
Definition substring_search (pattern text : string) : outcome bool :=
  Return (contains pattern text).

End SupportFixture.

(** * Properties of [build_td_spec] *)

Module SpecBuilderFacts.
Import Py SpecBuilder.

Section Facts.
Context `{IR : !IRBindings}.

(** *** Strings *)

Lemma append_nil (s : string) : "" +:+ s = s.
Proof. reflexivity. Qed.

Lemma append_cons (a : ascii) (s1 s2 : string) :
  String a s1 +:+ s2 = String a (s1 +:+ s2).
Proof. reflexivity. Qed.

Lemma append_assoc (s1 s2 s3 : string) :
  (s1 +:+ s2) +:+ s3 = s1 +:+ (s2 +:+ s3).
Proof.
  induction s1 as [|a s1 IH]; [reflexivity|].
  by rewrite !append_cons, IH.
Qed.

Lemma has_char_append (c : ascii) (s1 s2 : string) :
  has_char c (s1 +:+ String c s2) = true.
Proof.
  induction s1 as [|a s1 IH].
  - rewrite append_nil. cbn. by rewrite Ascii.eqb_refl.
  - rewrite append_cons. cbn. rewrite IH. by rewrite orb_true_r.
Qed.

(** A string splits in at most one way around the last occurrence of a
    separator character. *)
Lemma last_separator_unique (c : ascii) (s1 s2 d1 d2 : string) :
  has_char c d1 = false → has_char c d2 = false →
  s1 +:+ String c d1 = s2 +:+ String c d2 → s1 = s2 ∧ d1 = d2.
Proof.
  intros Hd1 Hd2. revert s2.
  induction s1 as [|a s1 IH]; intros [|b s2] Heq;
    rewrite ?append_nil, ?append_cons in Heq.
  - by injection Heq.
  - injection Heq as _ Heq. subst d1. by rewrite has_char_append in Hd1.
  - injection Heq as _ Heq. subst d2. by rewrite has_char_append in Hd2.
  - injection Heq as -> Heq. destruct (IH _ Heq) as [-> ->]. done.
Qed.

Lemma pretty_N_char_not_underscore (x : N) :
  Ascii.eqb (pretty_N_char x) "_" = false.
Proof. unfold pretty_N_char. by repeat case_match. Qed.

Lemma pretty_N_go_no_underscore (x : N) (s : string) :
  has_char "_" s = false → has_char "_" (pretty_N_go x s) = false.
Proof.
  revert s. induction (N.lt_wf_0 x) as [x _ IH]; intros s Hs.
  destruct (decide (x = 0)%N) as [->|Hpos].
  - by rewrite pretty_N_go_0.
  - rewrite pretty_N_go_step by lia.
    apply IH; [apply N.div_lt; lia|].
    cbn. by rewrite pretty_N_char_not_underscore.
Qed.

Lemma str_nat_no_underscore (i : nat) : has_char "_" (str_nat i) = false.
Proof.
  unfold str_nat, pretty, pretty_nat, pretty, pretty_N.
  case_decide; [reflexivity|]. by apply pretty_N_go_no_underscore.
Qed.

Lemma str_nat_inj (i j : nat) : str_nat i = str_nat j → i = j.
Proof. unfold str_nat. apply (inj pretty). Qed.

Lemma startswith_append (needle rest : string) :
  startswith needle (needle +:+ rest) = true.
Proof.
  induction needle as [|a needle IH]; [by destruct rest|].
  rewrite append_cons. cbn. by rewrite Ascii.eqb_refl.
Qed.

Lemma startswith_inv (needle s : string) :
  startswith needle s = true → ∃ rest, s = needle +:+ rest.
Proof.
  revert s. induction needle as [|a needle IH]; intros s Hs.
  - by exists s.
  - destruct s as [|b s]; [done|]. cbn in Hs.
    destruct (Ascii.eqb a b) eqn:Hab; [|done].
    apply Ascii.eqb_eq in Hab as ->.
    destruct (IH s Hs) as [rest ->]. by exists rest.
Qed.

(** [contains] decides whether the needle is a substring. *)
Lemma contains_spec (needle s : string) :
  contains needle s = true ↔ ∃ before after, s = before +:+ needle +:+ after.
Proof.
  unfold contains. rewrite bool_decide_eq_true. split.
  - induction s as [|a s IH]; cbn; intros Hocc.
    + destruct (startswith needle "") eqn:Hstart; [|cbn in Hocc; lia].
      apply startswith_inv in Hstart as [rest Hrest]. by exists "", rest.
    + destruct (startswith needle (String a s)) eqn:Hstart.
      * apply startswith_inv in Hstart as [rest Hrest]. by exists "", rest.
      * destruct IH as (before & after & ->); [cbn in Hocc; lia|].
        by exists (String a before), after.
  - intros (before & after & ->).
    induction before as [|a before IH].
    + rewrite append_nil.
      destruct (needle +:+ after) eqn:Heq; cbn;
        rewrite <- Heq, startswith_append; lia.
    + rewrite append_cons. cbn. lia.
Qed.

(** *** The configuration loop *)

Lemma fmap_enumerate {A B} (f : nat → A → B) (xs : list A) :
  (λ '(i, x), f i x) <$> enumerate xs = imap f xs.
Proof.
  unfold enumerate. rewrite fmap_imap. apply imap_ext. reflexivity.
Qed.

Lemma config_loop_foldl (pairs : list (nat * TuningConfiguration))
    (config_lines yield_vars : list string) :
  foldl (λ '(config_lines, yield_vars) '(i, config),
           (config_lines ++ [config_line i config],
            yield_vars ++ [config_var i config]))
        (config_lines, yield_vars) pairs
  = (config_lines ++ ((λ '(i, config), config_line i config) <$> pairs),
     yield_vars ++ ((λ '(i, config), config_var i config) <$> pairs)).
Proof.
  revert config_lines yield_vars.
  induction pairs as [|[i config] pairs IH]; intros config_lines yield_vars.
  - simpl. by rewrite !app_nil_r.
  - simpl. rewrite IH. by rewrite <- !app_assoc.
Qed.

Lemma config_loop_imap (config_list : list TuningConfiguration) :
  config_loop config_list
  = (imap config_line config_list, imap config_var config_list).
Proof.
  unfold config_loop. rewrite config_loop_foldl. simpl.
  by rewrite !fmap_enumerate.
Qed.

(** *** The operand loop *)

Lemma operand_step_seen (operand : Value) (bbargs : list string)
    (seen : gset Value) (w : world) :
  operand ∈ seen →
  operand_step (bbargs, seen) operand w
  = (Return (bbargs, seen),
     {| live_op := live_op w;
        warnings := warnings w ++ [REPEATED_OPERAND_WARNING] |}).
Proof.
  intros Hin. unfold operand_step.
  destruct (decide (operand ∈ seen)) as [_|Hnotin]; [reflexivity|done].
Qed.

Lemma operand_step_fresh (operand : Value) (bbargs : list string)
    (seen : gset Value) (w : world) :
  operand ∉ seen →
  operand_step (bbargs, seen) operand w
  = (Return (bbargs ++ [bbarg_decl operand], seen ∪ {[operand]}), w).
Proof.
  intros Hnotin. unfold operand_step.
  destruct (decide (operand ∈ seen)) as [Hin|_]; [done|reflexivity].
Qed.

Lemma for_each_operand_step (ops : list Value) (bbargs : list string)
    (seen : gset Value) (w : world) :
  for_each operand_step ops (bbargs, seen) w
  = (Return (bbargs ++ (bbarg_decl <$> first_occurrences seen ops),
             seen ∪ list_to_set ops),
     {| live_op := live_op w;
        warnings := warnings w
                    ++ replicate (repeated_operands seen ops)
                                 REPEATED_OPERAND_WARNING |}).
Proof.
  revert bbargs seen w.
  induction ops as [|operand ops IH]; intros bbargs seen [op log].
  - simpl. unfold ret. rewrite !app_nil_r.
    by rewrite (right_id_L ∅ (∪)).
  - cbn [for_each first_occurrences repeated_operands list_to_set].
    unfold mbind, M_bind, bind.
    destruct (decide (operand ∈ seen)) as [Hin|Hnotin].
    + rewrite operand_step_seen by done. rewrite IH. cbn.
      rewrite <- app_assoc. cbn.
      rewrite (assoc_L (∪)), (comm_L (∪) seen {[operand]}).
      by rewrite (subseteq_union_1_L {[operand]} seen)
        by (by apply singleton_subseteq_l).
    + rewrite operand_step_fresh by done. rewrite IH. cbn.
      rewrite <- app_assoc. cbn.
      by rewrite (assoc_L (∪)).
Qed.

(** *** The marker attribute *)

Lemma strip_root_attr_absent (op : Operation) :
  attributes op !! ROOT_OP_ATTR_NAME = None → strip_root_attr op = op.
Proof.
  destruct op as [n attrs ops]. unfold strip_root_attr, with_attributes.
  simpl. intros Hnone. f_equal. by apply delete_id.
Qed.

Lemma restore_root_attr (op : Operation) :
  attributes op !! ROOT_OP_ATTR_NAME = Some UnitAttr →
  with_attributes (insert ROOT_OP_ATTR_NAME UnitAttr) (strip_root_attr op)
  = op.
Proof.
  destruct op as [n attrs ops]. unfold strip_root_attr, with_attributes.
  simpl. intros Hunit. f_equal.
  rewrite insert_delete_eq. by apply insert_id.
Qed.

(** *** What a call does when the marker is well-formed *)

Lemma build_td_spec_run (context : IRContext)
    (config_list : list TuningConfiguration) (func_name : string)
    (w : world) :
  root_attr_ok (live_op w) →
  build_td_spec context config_list func_name w
  = Module_parse (rendered_text (live_op w) config_list func_name) context
                 (world_after w).
Proof.
  intros Hok. destruct w as [op log]. simpl in Hok.
  unfold build_td_spec, mbind, M_bind, bind, attr_contains, attr_getitem,
    attr_delitem, attr_setitem, modify, gets.
  cbn [live_op warnings].
  destruct Hok as [Hnone|Hunit].
  - rewrite Hnone. cbn [bool_decide decide_rel when ret assert_].
    cbn. rewrite for_each_operand_step. cbn.
    rewrite config_loop_imap, fmap_enumerate, length_imap.
    unfold rendered_text, world_after, yield_types_of. cbn.
    by rewrite (strip_root_attr_absent op Hnone).
  - repeat (rewrite Hunit; cbn [bool_decide decide_rel when ret assert_
                                  isinstance_UnitAttr live_op warnings]).
    cbn. repeat (rewrite Hunit; cbn).
    fold (strip_root_attr op). rewrite (restore_root_attr op Hunit).
    rewrite for_each_operand_step. cbn.
    rewrite config_loop_imap, fmap_enumerate, length_imap.
    reflexivity.
Qed.

(** *** The marker is put back *)

(** C1: when the operation carries the marker as a unit attribute, the
    operation left behind by [build_td_spec], and so its attribute
    dictionary, is the one it was given.  The printed operation inside the
    emitted text is the operation without the marker: the marker is away
    only while the operation is printed. *)
Theorem build_td_spec_restores_root_attr (context : IRContext)
    (config_list : list TuningConfiguration) (func_name : string)
    (w : world) :
  attributes (live_op w) !! ROOT_OP_ATTR_NAME = Some UnitAttr →
  attributes (live_op (build_td_spec context config_list func_name w).2)
  = attributes (live_op w)
  ∧ live_op (build_td_spec context config_list func_name w).2 = live_op w
  ∧ (build_td_spec context config_list func_name w).1
    = (Module_parse (rendered_text (live_op w) config_list func_name)
                    context w).1
  ∧ attributes (strip_root_attr (live_op w))
    = delete ROOT_OP_ATTR_NAME (attributes (live_op w))
  ∧ attributes (strip_root_attr (live_op w)) !! ROOT_OP_ATTR_NAME = None.
Proof.
  intros Hunit.
  rewrite build_td_spec_run by (by right).
  unfold Module_parse.
  destruct (parse _ context) as [m|]; cbn;
    repeat split; try done; apply lookup_delete_eq.
Qed.

(** C2: when the marker is present with another kind than the unit
    attribute, [build_td_spec] raises the assertion failure, and it does so
    with the store untouched: the operation is as it was, nothing was
    logged, and the parser (any parser) was not reached. *)
Theorem build_td_spec_rejects_wrong_kind (context : IRContext)
    (config_list : list TuningConfiguration) (func_name : string)
    (w : world) (attr : Attribute) :
  attributes (live_op w) !! ROOT_OP_ATTR_NAME = Some attr →
  isinstance_UnitAttr attr = false →
  build_td_spec context config_list func_name w
  = (Raise (AssertionError "expected 'root_op' attr to be a unit attr"), w).
Proof.
  intros Hattr Hkind. destruct w as [op log]. simpl in Hattr.
  unfold build_td_spec, mbind, M_bind, bind, attr_contains, attr_getitem,
    gets.
  cbn [live_op warnings].
  repeat (rewrite Hattr; cbn [bool_decide decide_rel when ret assert_
                                live_op warnings]).
  cbn. rewrite Hattr. cbn. rewrite Hkind. reflexivity.
Qed.

(** C5: when the operation does not carry the marker, the operation left
    behind by [build_td_spec] is the one it was given, so it prints the same
    before and after the call. *)
Theorem build_td_spec_leaves_unmarked_op (context : IRContext)
    (config_list : list TuningConfiguration) (func_name : string)
    (w : world) :
  attributes (live_op w) !! ROOT_OP_ATTR_NAME = None →
  live_op (build_td_spec context config_list func_name w).2 = live_op w
  ∧ str_op (live_op (build_td_spec context config_list func_name w).2)
    = str_op (live_op w).
Proof.
  intros Hnone.
  rewrite build_td_spec_run by (by left).
  unfold Module_parse.
  by destruct (parse _ context) as [m|].
Qed.

(** *** Configuration variables *)

Lemma config_var_index (i j : nat) (ci cj : TuningConfiguration) :
  config_var i ci = config_var j cj → i = j.
Proof.
  unfold config_var. intros Heq.
  rewrite !append_cons, !append_nil in Heq. injection Heq as Heq.
  apply last_separator_unique in Heq as [_ Heq];
    [by apply str_nat_inj|apply str_nat_no_underscore..].
Qed.

(** C6: the SSA variables of the constant-parameter declarations, built
    from each configuration's name and its position, are pairwise distinct
    for every configuration list, whatever the names. *)
Theorem config_vars_distinct (config_list : list TuningConfiguration) :
  NoDup (config_loop config_list).2
  ∧ (config_loop config_list).2 = imap config_var config_list
  ∧ ∀ i j ci cj,
      config_list !! i = Some ci → config_list !! j = Some cj → i ≠ j →
      config_var i ci ≠ config_var j cj.
Proof.
  rewrite config_loop_imap. cbn. split_and!; [|done|].
  - apply NoDup_alt. intros i j x.
    rewrite !list_lookup_imap.
    destruct (config_list !! i) as [ci|] eqn:Hi; [|done].
    destruct (config_list !! j) as [cj|] eqn:Hj; [|done].
    cbn. intros Hx Hy.
    assert (config_var i ci = config_var j cj) as Heq by congruence.
    by apply config_var_index in Heq.
  - intros i j ci cj _ _ Hne Heq. by apply config_var_index in Heq.
Qed.

(** *** Repeated operands *)

Lemma first_occurrences_fresh (seen : gset Value) (ops : list Value) :
  NoDup ops → (∀ v, v ∈ ops → v ∉ seen) →
  first_occurrences seen ops = ops ∧ repeated_operands seen ops = 0.
Proof.
  intros Hnodup. revert seen.
  induction Hnodup as [|v ops Hnotin Hnodup IH]; intros seen Hfresh;
    [done|].
  cbn. destruct (decide (v ∈ seen)) as [Hin|_].
  - exfalso. by apply (Hfresh v); [left|].
  - destruct (IH (seen ∪ {[v]})) as [-> ->]; [|done].
    intros x Hx [Hseen|Hv%elem_of_singleton]%elem_of_union.
    + by apply (Hfresh x); [right|].
    + by subst x.
Qed.


Lemma operands_counted (seen : gset Value) (ops : list Value) :
  length (first_occurrences seen ops) + repeated_operands seen ops
  = length ops.
Proof.
  revert seen. induction ops as [|v ops IH]; intros seen; [done|].
  cbn. destruct (decide (v ∈ seen)); cbn;
    [specialize (IH seen)|specialize (IH (seen ∪ {[v]}))]; lia.
Qed.




(** *** The emitted text *)

Lemma spec_text_template_sequences
    (annotation_args annotation_lines func_name yield_types bbargs_str
       root_operation config_block yield_list : string) :
  spec_text_template annotation_args annotation_lines func_name yield_types
    bbargs_str root_operation config_block yield_list
  = sequence_module
      [ ("Annotation Transform",
         annotation_sequence annotation_args annotation_lines);
        ("Custom Op Matcher",
         matcher_sequence func_name yield_types bbargs_str root_operation
           config_block yield_list);
        ("Entry Point", entry_point_sequence func_name) ].
Proof.
  unfold spec_text_template, sequence_module, join.
  cbn [fmap list_fmap String.concat].
  rewrite !append_assoc. reflexivity.
Qed.





(** *** The three sequences *)


(** C9: the emitted text is one module made of three named sequences:
    [apply_op_config], the sequence under the caller's name, and
    [__kernel_config], whose body runs [foreach_match] with the caller's
    matcher and [apply_op_config] over the payload and yields the result.
    The template itself has the sequence keyword three times. *)
Theorem build_td_spec_three_sequences (context : IRContext)
    (config_list : list TuningConfiguration) (func_name : string)
    (w : world) :
  root_attr_ok (live_op w) →
  ∃ annotation_rest matcher_rest,
    build_td_spec context config_list func_name w
    = Module_parse
        (sequence_module
           [ ("Annotation Transform",
              named_sequence " " "apply_op_config" annotation_rest);
             ("Custom Op Matcher",
              named_sequence " " func_name matcher_rest);
             ("Entry Point",
              named_sequence (nl +:+ "        ") "__kernel_config"
                (foreach_match_entry func_name)) ])
        context (world_after w)
    ∧ occurrences "transform.named_sequence" template_frame = 3.
Proof.
  intros Hok. do 2 eexists. split.
  - rewrite build_td_spec_run by done. unfold rendered_text.
    rewrite spec_text_template_sequences.
    unfold annotation_sequence, matcher_sequence, entry_point_sequence,
      named_sequence, foreach_match_entry.
    reflexivity.
  - vm_compute. reflexivity.
Qed.

End Facts.

(** *** Runs on the fixture *)


(** The sample of the specification: operands [a: i32, b: f32], the
    configurations [tile_size = 32] and [vector_size = 4], and the sequence
    name [match_op]. *)
Example sample_text_substrings :
  let text :=
    Fixture.emitted_text Fixture.marked_op Fixture.tile_and_vector
      "match_op" in
  contains "transform.named_sequence @match_op" text = true
  ∧ contains "transform.param.constant 32" text = true
  ∧ contains "transform.param.constant 4" text = true
  ∧ contains ("transform.annotate %op " +:+ dquote +:+ "tile_size" +:+ dquote)
      text = true
  ∧ contains "^bb0(%a: i32, %b: f32):" text = true
  ∧ contains "linalg.matmul(%a, %b)" text = true
  ∧ contains "root_op" text = false.
Proof. vm_compute. repeat split. Qed.

Example sample_text_counts :
  let text :=
    Fixture.emitted_text Fixture.marked_op Fixture.tile_and_vector
      "match_op" in
  occurrences "transform.param.constant" text = 2
  ∧ occurrences "transform.annotate" text = 2
  ∧ occurrences "transform.named_sequence" text = 3.
Proof. vm_compute. repeat split. Qed.

(** With an empty configuration list the parameter list of
    [apply_op_config] ends in a comma. *)
Example empty_config_list_text :
  contains "{transform.readonly}, ) {"
    (Fixture.emitted_text Fixture.marked_op [] "match_op") = true.
Proof. vm_compute. reflexivity. Qed.

(** *** The theorems above at the fixture *)

Lemma build_td_spec_restores_root_attr_witness :
  attributes (live_op (Fixture.fresh_world Fixture.marked_op))
    !! ROOT_OP_ATTR_NAME = Some UnitAttr
  ∧ (attributes
       (live_op (build_td_spec tt Fixture.tile_and_vector "match_op"
                   (Fixture.fresh_world Fixture.marked_op)).2)
     = attributes (live_op (Fixture.fresh_world Fixture.marked_op))
     ∧ live_op (build_td_spec tt Fixture.tile_and_vector "match_op"
                  (Fixture.fresh_world Fixture.marked_op)).2
       = live_op (Fixture.fresh_world Fixture.marked_op)
     ∧ (build_td_spec tt Fixture.tile_and_vector "match_op"
          (Fixture.fresh_world Fixture.marked_op)).1
       = (Module_parse
            (rendered_text (live_op (Fixture.fresh_world Fixture.marked_op))
               Fixture.tile_and_vector "match_op")
            tt (Fixture.fresh_world Fixture.marked_op)).1
     ∧ attributes
         (strip_root_attr (live_op (Fixture.fresh_world Fixture.marked_op)))
       = delete ROOT_OP_ATTR_NAME
           (attributes (live_op (Fixture.fresh_world Fixture.marked_op)))
     ∧ attributes
         (strip_root_attr (live_op (Fixture.fresh_world Fixture.marked_op)))
         !! ROOT_OP_ATTR_NAME = None).
Proof.
  split; [reflexivity|].
  apply (build_td_spec_restores_root_attr (IR := Fixture.bindings) tt
           Fixture.tile_and_vector "match_op"
           (Fixture.fresh_world Fixture.marked_op)).
  reflexivity.
Defined.

Lemma build_td_spec_rejects_wrong_kind_witness :
  attributes (live_op (Fixture.fresh_world Fixture.mismarked_op))
    !! ROOT_OP_ATTR_NAME = Some (StringAttr "yes")
  ∧ isinstance_UnitAttr (StringAttr "yes") = false
  ∧ build_td_spec tt Fixture.tile_and_vector "match_op"
      (Fixture.fresh_world Fixture.mismarked_op)
    = (Raise (AssertionError "expected 'root_op' attr to be a unit attr"),
       Fixture.fresh_world Fixture.mismarked_op).
Proof.
  split_and!; [reflexivity|reflexivity|].
  apply (build_td_spec_rejects_wrong_kind (IR := Fixture.bindings) tt
           Fixture.tile_and_vector "match_op"
           (Fixture.fresh_world Fixture.mismarked_op) (StringAttr "yes"));
    reflexivity.
Defined.

Lemma build_td_spec_leaves_unmarked_op_witness :
  attributes (live_op (Fixture.fresh_world Fixture.plain_op))
    !! ROOT_OP_ATTR_NAME = None
  ∧ (live_op (build_td_spec tt Fixture.tile_and_vector "match_op"
                (Fixture.fresh_world Fixture.plain_op)).2
     = live_op (Fixture.fresh_world Fixture.plain_op)
     ∧ str_op (live_op (build_td_spec tt Fixture.tile_and_vector "match_op"
                          (Fixture.fresh_world Fixture.plain_op)).2)
       = str_op (live_op (Fixture.fresh_world Fixture.plain_op))).
Proof.
  split; [reflexivity|].
  apply (build_td_spec_leaves_unmarked_op (IR := Fixture.bindings) tt
           Fixture.tile_and_vector "match_op"
           (Fixture.fresh_world Fixture.plain_op)).
  reflexivity.
Defined.





Lemma build_td_spec_three_sequences_witness :
  root_attr_ok (live_op (Fixture.fresh_world Fixture.marked_op))
  ∧ ∃ annotation_rest matcher_rest,
      build_td_spec tt Fixture.tile_and_vector "match_op"
        (Fixture.fresh_world Fixture.marked_op)
      = Module_parse
          (sequence_module
             [ ("Annotation Transform",
                named_sequence " " "apply_op_config" annotation_rest);
               ("Custom Op Matcher",
                named_sequence " " "match_op" matcher_rest);
               ("Entry Point",
                named_sequence (nl +:+ "        ") "__kernel_config"
                  (foreach_match_entry "match_op")) ])
          tt (world_after (Fixture.fresh_world Fixture.marked_op))
      ∧ occurrences "transform.named_sequence" template_frame = 3.
Proof.
  split; [right; reflexivity|].
  apply (build_td_spec_three_sequences (IR := Fixture.bindings) tt
           Fixture.tile_and_vector "match_op"
           (Fixture.fresh_world Fixture.marked_op)).
  right. reflexivity.
Defined.

End SpecBuilderFacts.

(** * Properties of [get_frozen_test_text_prompts] *)

Module TestingFacts.
Import Py Testing.

Section Facts.
Context `{RM : !RandomModule}.

Lemma get_frozen_test_text_prompts_run (num_prompts : Z)
    (min_prompt_length : option Z) (state : rng_state) :
  get_frozen_test_text_prompts num_prompts min_prompt_length state
  = ((get_random_test_text_prompts num_prompts min_prompt_length
        (seeded_state 13910398)).1,
     state).
Proof.
  unfold get_frozen_test_text_prompts, random_getstate, random_setstate,
    random_seed, try_finally, mbind, M_bind, bind, gets, modify.
  cbn.
  by destruct (get_random_test_text_prompts num_prompts min_prompt_length
                 (seeded_state 13910398)) as [[prompts|e] state'].
Qed.

(** C10: [get_frozen_test_text_prompts] leaves the generator in the state
    it found it in, whether it returns or raises; what it returns or raises
    does not depend on that state; and a computation that follows a call
    that returned runs as if the call had not been made. *)
Theorem get_frozen_test_text_prompts_restores_rng (num_prompts : Z)
    (min_prompt_length : option Z) :
  (∀ state,
     (get_frozen_test_text_prompts num_prompts min_prompt_length state).2
     = state)
  ∧ (∀ state state',
       (get_frozen_test_text_prompts num_prompts min_prompt_length state).1
       = (get_frozen_test_text_prompts num_prompts min_prompt_length
            state').1)
  ∧ (∀ (A : Type) (draw : M rng_state A) state,
       (get_frozen_test_text_prompts num_prompts min_prompt_length
          ≫= λ _, draw) state
       = match (get_frozen_test_text_prompts num_prompts min_prompt_length
                  state).1 with
         | Return _ => draw state
         | Raise e => (Raise e, state)
         end).
Proof.
  split_and!.
  - intros state. by rewrite get_frozen_test_text_prompts_run.
  - intros state state'. by rewrite !get_frozen_test_text_prompts_run.
  - intros A draw state. unfold mbind, M_bind, bind.
    rewrite get_frozen_test_text_prompts_run. cbn.
    by destruct (get_random_test_text_prompts num_prompts min_prompt_length
                   (seeded_state 13910398)).1.
Qed.

End Facts.

(** A call that returns and a call that raises, both from state 42. *)
Example frozen_prompts_return :
  get_frozen_test_text_prompts (RM := PromptFixture.random_module)
    2 (Some 10%Z) 42%Z
  = (Return
       [ " Robert Boulter is an English film , television and theatre actor . ";
         " In 2006 , Boulter starred alongside Whishaw in the play Citizenship . " ],
     42%Z).
Proof. vm_compute. reflexivity. Qed.

Example frozen_prompts_raise :
  get_frozen_test_text_prompts (RM := PromptFixture.random_module)
    9 None 42%Z
  = (Raise (ValueError "Sample larger than population or is negative"),
     42%Z).
Proof. vm_compute. reflexivity. Qed.

(** Without the freeze the state moves on. *)
Example random_prompts_advance :
  (get_random_test_text_prompts (RM := PromptFixture.random_module)
     2 (Some 10%Z) 42%Z).2 ≠ 42%Z.
Proof. vm_compute. discriminate. Qed.

End TestingFacts.

(** * More about [build_td_spec]: operands, repeated calls, edge cases *)

Module SpecBuilderMoreFacts.
Import Py SpecBuilder SpecBuilderFacts.

Section Facts.
Context `{IR : !IRBindings}.

Lemma first_occurrences_elem (seen : gset Value) (ops : list Value)
    (v : Value) :
  v ∈ first_occurrences seen ops ↔ v ∈ ops ∧ v ∉ seen.
Proof.
  revert seen. induction ops as [|x ops IH]; intros seen; cbn.
  - split; [by intros ?%elem_of_nil|by intros [?%elem_of_nil _]].
  - destruct (decide (x ∈ seen)) as [Hx|Hx].
    + rewrite IH, elem_of_cons. split.
      * intros [Hin Hv]. split; [by right|done].
      * intros [[->|Hin] Hv]; done.
    + rewrite !elem_of_cons, IH, elem_of_union, elem_of_singleton.
      split.
      * intros [->|[Hin Hv]]; [by split; [left|]|].
        split; [by right|]. intros Hseen. apply Hv. by left.
      * intros [[->|Hin] Hv]; [by left|].
        destruct (decide (v = x)) as [->|Hne]; [by left|].
        right. split; [done|]. by intros [?|?].
Qed.

Lemma first_occurrences_NoDup (seen : gset Value) (ops : list Value) :
  NoDup (first_occurrences seen ops).
Proof.
  revert seen. induction ops as [|x ops IH]; intros seen; cbn.
  - constructor.
  - destruct (decide (x ∈ seen)); [apply IH|].
    constructor; [|apply IH].
    rewrite first_occurrences_elem, elem_of_union, elem_of_singleton.
    intros [_ Hx]. apply Hx. by right.
Qed.

Lemma first_occurrences_sublist (seen : gset Value) (ops : list Value) :
  first_occurrences seen ops `sublist_of` ops.
Proof.
  revert seen. induction ops as [|x ops IH]; intros seen; cbn; [done|].
  destruct (decide (x ∈ seen)).
  - apply sublist_cons. apply IH.
  - apply sublist_skip. apply IH.
Qed.

Lemma first_occurrences_size (ops : list Value) :
  length (first_occurrences ∅ ops) = size (list_to_set ops : gset Value).
Proof.
  rewrite <- (size_list_to_set (C := gset Value) (first_occurrences ∅ ops))
    by apply first_occurrences_NoDup.
  f_equal. apply set_eq. intros v.
  rewrite !elem_of_list_to_set, first_occurrences_elem.
  split; [by intros [? _]|]. intros Hin. split; [done|].
  apply not_elem_of_empty.
Qed.

Lemma sublist_same_length (l1 l2 : list Value) :
  l1 `sublist_of` l2 → length l1 = length l2 → l1 = l2.
Proof.
  induction 1 as [|x l1 l2 Hsub IH|x l1 l2 Hsub IH]; cbn; intros Hlen.
  - done.
  - f_equal. apply IH. lia.
  - apply sublist_length in Hsub. lia.
Qed.

Lemma repeated_operands_nodup (ops : list Value) :
  repeated_operands ∅ ops = 0 ↔ NoDup ops.
Proof.
  split.
  - intros Hzero.
    assert (length (first_occurrences ∅ ops) = length ops) as Hlen.
    { pose proof (operands_counted ∅ ops). lia. }
    rewrite <- (sublist_same_length _ _ (first_occurrences_sublist ∅ ops)
                  Hlen).
    apply first_occurrences_NoDup.
  - intros Hnodup.
    apply (first_occurrences_fresh ∅ ops Hnodup).
    intros v _. apply not_elem_of_empty.
Qed.

Lemma contains_append_l (needle s1 s2 : string) :
  contains needle s1 = true → contains needle (s1 +:+ s2) = true.
Proof.
  rewrite !contains_spec. intros (before & after & ->).
  exists before, (after +:+ s2). by rewrite !append_assoc.
Qed.

Lemma contains_append_r (needle s1 s2 : string) :
  contains needle s2 = true → contains needle (s1 +:+ s2) = true.
Proof.
  rewrite !contains_spec. intros (before & after & ->).
  exists (s1 +:+ before), after. by rewrite !append_assoc.
Qed.

Lemma Module_parse_fst (text : string) (context : IRContext)
    (w1 w2 : world) :
  (Module_parse text context w1).1 = (Module_parse text context w2).1.
Proof. unfold Module_parse. by destruct (parse text context). Qed.

Lemma Module_parse_snd (text : string) (context : IRContext) (w : world) :
  (Module_parse text context w).2 = w.
Proof. unfold Module_parse. by destruct (parse text context). Qed.

Lemma strip_root_attr_idemp (op : Operation) :
  strip_root_attr (strip_root_attr op) = strip_root_attr op.
Proof.
  apply strip_root_attr_absent. destruct op. apply lookup_delete_eq.
Qed.

Lemma rendered_text_strip (op : Operation)
    (config_list : list TuningConfiguration) (func_name : string) :
  rendered_text (strip_root_attr op) config_list func_name
  = rendered_text op config_list func_name.
Proof.
  unfold rendered_text. rewrite strip_root_attr_idemp. by destruct op.
Qed.


(** A call appends to the log one warning for every use of an operand
    beyond its first, and nothing else: as many warnings as there are
    operands in the list minus distinct operands.  The log is left as it
    was exactly when no operand is repeated. *)
Theorem warnings_count_repeated_uses (context : IRContext)
    (config_list : list TuningConfiguration) (func_name : string)
    (w : world) :
  root_attr_ok (live_op w) →
  warnings (build_td_spec context config_list func_name w).2
  = warnings w
    ++ replicate (length (operands (live_op w))
                  - size (list_to_set (operands (live_op w)) : gset Value))
                 REPEATED_OPERAND_WARNING
  ∧ (warnings (build_td_spec context config_list func_name w).2 = warnings w
     ↔ NoDup (operands (live_op w))).
Proof.
  intros Hok. rewrite build_td_spec_run, Module_parse_snd by done.
  unfold world_after. cbn [warnings].
  pose proof (operands_counted ∅ (operands (live_op w))) as Hcount.
  rewrite first_occurrences_size in Hcount.
  replace (length (operands (live_op w))
           - size (list_to_set (operands (live_op w)) : gset Value))
    with (repeated_operands ∅ (operands (live_op w))) by lia.
  split; [done|].
  rewrite <- repeated_operands_nodup.
  destruct (repeated_operands ∅ (operands (live_op w))) as [|n]; cbn.
  - by rewrite app_nil_r.
  - split; [|done]. intros Heq.
    apply (f_equal length) in Heq. rewrite length_app in Heq. cbn in Heq.
    lia.
Qed.

(** A call does not disturb a later one: whatever the first call was asked
    to render and whatever the parser said, a second call on the store the
    first one left gives the outcome it would have given on the original
    store, and leaves the same operation. *)
Theorem second_call_same_operation (context1 context2 : IRContext)
    (config_list1 config_list2 : list TuningConfiguration)
    (func_name1 func_name2 : string) (w : world) :
  root_attr_ok (live_op w) →
  (build_td_spec context2 config_list2 func_name2
     (build_td_spec context1 config_list1 func_name1 w).2).1
  = (build_td_spec context2 config_list2 func_name2 w).1
  ∧ live_op
      (build_td_spec context2 config_list2 func_name2
         (build_td_spec context1 config_list1 func_name1 w).2).2
    = live_op w.
Proof.
  intros Hok.
  rewrite (build_td_spec_run context1) by done.
  rewrite Module_parse_snd.
  rewrite !(build_td_spec_run context2) by done.
  rewrite Module_parse_snd. split; [|done].
  apply Module_parse_fst.
Qed.

(** The marker never shows in the outcome: an operation that carries the
    unit marker and the same operation without it give the same outcome. *)
Theorem marker_does_not_show (context : IRContext)
    (config_list : list TuningConfiguration) (func_name : string)
    (op : Operation) (log : list string) :
  attributes op !! ROOT_OP_ATTR_NAME = Some UnitAttr →
  (build_td_spec context config_list func_name
     {| live_op := op; warnings := log |}).1
  = (build_td_spec context config_list func_name
       {| live_op := strip_root_attr op; warnings := log |}).1.
Proof.
  intros Hunit.
  rewrite build_td_spec_run by (by right).
  rewrite build_td_spec_run
    by (left; destruct op; apply lookup_delete_eq).
  cbn [live_op]. rewrite rendered_text_strip.
  apply Module_parse_fst.
Qed.

(** With no configuration at all the call still reaches the parser; the
    parameter list of [apply_op_config] in the text then ends in a comma
    before the closing parenthesis, and the matcher yields the operation
    alone. *)
Theorem empty_config_list_dangling_comma (context : IRContext)
    (func_name : string) (w : world) :
  root_attr_ok (live_op w) →
  ∃ bbargs_str root_operation text,
    text = spec_text_template "" "" func_name "!transform.any_op" bbargs_str
             root_operation "" "%cont"
    ∧ build_td_spec context [] func_name w
      = Module_parse text context (world_after w)
    ∧ contains
        "@apply_op_config(%op: !transform.any_op {transform.readonly}, ) {"
        text = true.
Proof.
  intros Hok. do 3 eexists. split_and!.
  - reflexivity.
  - rewrite build_td_spec_run by done. reflexivity.
  - unfold spec_text_template.
    do 5 apply contains_append_r. apply contains_append_l.
    vm_compute. reflexivity.
Qed.





End Facts.
End SpecBuilderMoreFacts.

(** * Properties of the container assertions *)

Module AssertsFacts.
Import Py Asserts.

Section Iterables.
Context {A : Type} `{!EqDecision A}.
Variable fmt : A → string.

Lemma iterables_loop_return (elements_equal : A → A → bool) (i : nat)
    (iterable1 iterable2 : list A) :
  iterables_loop fmt elements_equal i iterable1 iterable2 = Return tt
  ↔ Forall2 (λ a b, elements_equal a b = true) iterable1 iterable2.
Proof.
  revert i iterable2.
  induction iterable1 as [|v1 rest1 IH]; intros i [|v2 rest2]; cbn.
  - split; [constructor|done].
  - split; [done|]. intros Hall. inversion Hall.
  - split; [done|]. intros Hall. inversion Hall.
  - destruct (elements_equal v1 v2) eqn:Heq.
    + rewrite IH. split; [by constructor|].
      intros Hall. by inversion Hall.
    + split; [done|]. intros Hall. inversion Hall. congruence.
Qed.

Lemma iterables_loop_mismatch (elements_equal : A → A → bool) (n i : nat)
    (iterable1 iterable2 : list A) (a b : A) :
  iterable1 !! i = Some a → iterable2 !! i = Some b →
  elements_equal a b = false →
  (∀ j x y, j < i → iterable1 !! j = Some x → iterable2 !! j = Some y →
            elements_equal x y = true) →
  iterables_loop fmt elements_equal n iterable1 iterable2
  = Raise (AssertionError
             ("Iterables not equal at index " +:+ str_nat (n + i)
                +:+ " for elements " +:+ fmt a +:+ " and " +:+ fmt b)).
Proof.
  revert n iterable1 iterable2.
  induction i as [|i IH]; intros n [|v1 rest1] [|v2 rest2] H1 H2 Hne Hbefore;
    try done; cbn in *.
  - injection H1 as ->. injection H2 as ->. rewrite Hne.
    by rewrite Nat.add_0_r.
  - rewrite (Hbefore 0 v1 v2) by (done || lia).
    rewrite (IH (S n) rest1 rest2 H1 H2 Hne).
    + by replace (S n + i) with (n + S i) by lia.
    + intros j x y Hj Hx Hy. apply (Hbefore (S j) x y); [lia|done..].
Qed.

Lemma iterables_loop_length (elements_equal : A → A → bool) (n : nat)
    (common1 common2 : list A) (x : A) (rest : list A) :
  Forall2 (λ a b, elements_equal a b = true) common1 common2 →
  iterables_loop fmt elements_equal n (common1 ++ x :: rest) common2
  = Raise (ValueError "zip() argument 2 is shorter than argument 1")
  ∧ iterables_loop fmt elements_equal n common1 (common2 ++ x :: rest)
    = Raise (ValueError "zip() argument 2 is longer than argument 1").
Proof.
  intros Hall. revert n.
  induction Hall as [|a b l1 l2 Hab Hall IH]; intros n; cbn; [done|].
  rewrite Hab. apply IH.
Qed.

(** [assert_iterables_equal] returns exactly when the two iterables have
    the same length and equal elements at every position: with the default
    comparison, exactly when they are the same sequence. *)
Theorem assert_iterables_equal_returns (iterable1 iterable2 : list A) :
  (assert_iterables_equal fmt iterable1 iterable2 None = Return tt
   ↔ iterable1 = iterable2)
  ∧ ∀ elements_equal,
      assert_iterables_equal fmt iterable1 iterable2 (Some elements_equal)
      = Return tt
      ↔ Forall2 (λ a b, elements_equal a b = true) iterable1 iterable2.
Proof.
  unfold assert_iterables_equal. cbn. split.
  - rewrite iterables_loop_return, list_eq_Forall2. unfold operator_eq.
    split; intros Hall; (eapply Forall2_impl; [exact Hall|]); intros a b.
    + by intros ?%bool_decide_eq_true.
    + intros ->. by apply bool_decide_eq_true.
  - intros elements_equal. apply iterables_loop_return.
Qed.

(** [assert_iterables_equal] reports the first position at which the
    elements differ, also when the iterables differ in length further on. *)
Theorem assert_iterables_equal_first_mismatch
    (elements_equal : A → A → bool) (iterable1 iterable2 : list A)
    (i : nat) (a b : A) :
  iterable1 !! i = Some a → iterable2 !! i = Some b →
  elements_equal a b = false →
  (∀ j x y, j < i → iterable1 !! j = Some x → iterable2 !! j = Some y →
            elements_equal x y = true) →
  assert_iterables_equal fmt iterable1 iterable2 (Some elements_equal)
  = Raise (AssertionError
             ("Iterables not equal at index " +:+ str_nat i
                +:+ " for elements " +:+ fmt a +:+ " and " +:+ fmt b)).
Proof.
  intros H1 H2 Hne Hbefore. unfold assert_iterables_equal. cbn.
  by rewrite (iterables_loop_mismatch elements_equal 0 i _ _ a b).
Qed.

(** When one iterable continues after the other has ended and all the
    elements up to there compare equal, [assert_iterables_equal] raises the
    [ValueError] of the strict [zip], not an assertion failure. *)
Theorem assert_iterables_equal_length_mismatch
    (elements_equal : A → A → bool) (common1 common2 : list A) (x : A)
    (rest : list A) :
  Forall2 (λ a b, elements_equal a b = true) common1 common2 →
  assert_iterables_equal fmt (common1 ++ x :: rest) common2
    (Some elements_equal)
  = Raise (ValueError "zip() argument 2 is shorter than argument 1")
  ∧ assert_iterables_equal fmt common1 (common2 ++ x :: rest)
      (Some elements_equal)
    = Raise (ValueError "zip() argument 2 is longer than argument 1").
Proof.
  intros Hall. unfold assert_iterables_equal. cbn.
  by apply iterables_loop_length.
Qed.

End Iterables.

Section Dicts.
Context {K V : Type} `{!EqDecision K, !EqDecision V}.
Variable fmt_dict : list (K * V) → string.
Variable fmt_key : K → string.
Variable fmt_value : V → string.

Lemma dict_get_None (k : K) (d : list (K * V)) :
  dict_get k d = None ↔ k ∉ d.*1.
Proof.
  induction d as [|[k' v] d IH]; cbn.
  - split; [intros _; apply not_elem_of_nil|done].
  - rewrite not_elem_of_cons. destruct (decide (k' = k)) as [->|Hne].
    + split; [done|]. by intros [? _].
    + rewrite IH. split; [intros ?; split; [congruence|done]|by intros [_ ?]].
Qed.

Lemma dict_get_Some (k : K) (v : V) (d : list (K * V)) :
  NoDup d.*1 → dict_get k d = Some v ↔ (k, v) ∈ d.
Proof.
  induction d as [|[k' v'] d IH]; cbn; intros Hnodup.
  - split; [done|by intros ?%elem_of_nil].
  - apply NoDup_cons in Hnodup as [Hk' Hnodup].
    rewrite elem_of_cons. destruct (decide (k' = k)) as [->|Hne].
    + split.
      * intros [= ->]. by left.
      * intros [[= ->]|Hin]; [done|].
        exfalso. apply Hk'. apply list_elem_of_fmap. by exists (k, v).
    + rewrite (IH Hnodup). split; [by right|].
      intros [[= -> ->]|Hin]; done.
Qed.

Lemma dicts_loop_return (values_equal : V → V → bool)
    (dict1_all items dict2 : list (K * V)) :
  dicts_loop fmt_dict fmt_key fmt_value values_equal dict1_all items dict2
  = Return tt
  ↔ ∀ k v1, (k, v1) ∈ items →
      ∃ v2, dict_get k dict2 = Some v2 ∧ values_equal v1 v2 = true.
Proof.
  induction items as [|[k v1] items IH]; cbn.
  - split; [|done]. by intros _ k v1 ?%elem_of_nil.
  - destruct (dict_get k dict2) as [v2|] eqn:Hget.
    + destruct (values_equal v1 v2) eqn:Heq.
      * rewrite IH. split.
        -- intros Hrest k' v1' [[= -> ->]|Hin]%elem_of_cons.
           ++ by exists v2.
           ++ by apply Hrest.
        -- intros Hall k' v1' Hin. apply Hall. by right.
      * split; [done|]. intros Hall.
        destruct (Hall k v1) as (v2' & Hget' & Heq'); [by left|].
        congruence.
    + split; [done|]. intros Hall.
      destruct (Hall k v1) as (v2' & Hget' & _); [by left|]. congruence.
Qed.

Lemma same_keys_same_length (dict1 dict2 : list (K * V)) :
  NoDup dict1.*1 → NoDup dict2.*1 →
  (∀ k, k ∈ dict1.*1 ↔ k ∈ dict2.*1) → length dict1 = length dict2.
Proof.
  intros Hnodup1 Hnodup2 Hkeys.
  rewrite <- (length_fmap fst dict1), <- (length_fmap fst dict2).
  apply Permutation_length. by apply NoDup_Permutation.
Qed.

Lemma keys_included_same_length (dict1 dict2 : list (K * V)) :
  NoDup dict1.*1 → length dict1 = length dict2 →
  (∀ k, k ∈ dict1.*1 → k ∈ dict2.*1) →
  ∀ k, k ∈ dict2.*1 → k ∈ dict1.*1.
Proof.
  intros Hnodup Hlen Hincl k Hk.
  assert (dict1.*1 ≡ₚ dict2.*1) as Hperm.
  { apply submseteq_length_Permutation.
    - by apply NoDup_submseteq.
    - rewrite !length_fmap. lia. }
  by rewrite Hperm.
Qed.

(** With the default comparison, [assert_dicts_equal] returns exactly when
    the two dictionaries hold the same value, or none, under every key;
    the order of their items plays no part. *)
Theorem assert_dicts_equal_returns (dict1 dict2 : list (K * V)) :
  NoDup dict1.*1 → NoDup dict2.*1 →
  assert_dicts_equal fmt_dict fmt_key fmt_value dict1 dict2 None = Return tt
  ↔ ∀ k, dict_get k dict1 = dict_get k dict2.
Proof.
  intros Hnodup1 Hnodup2. unfold assert_dicts_equal. cbn. split.
  - case_bool_decide as Hlen; [|done].
    rewrite dicts_loop_return. intros Hall k.
    destruct (dict_get k dict1) as [v1|] eqn:Hget1.
    + apply dict_get_Some in Hget1; [|done].
      destruct (Hall k v1 Hget1) as (v2 & -> & Heq).
      unfold operator_eq in Heq.
      apply bool_decide_eq_true in Heq. by subst.
    + symmetry. apply dict_get_None. intros Hk2.
      apply dict_get_None in Hget1. apply Hget1.
      apply (keys_included_same_length dict1 dict2); [done..| |done].
      intros k' [[k'' v1] [-> Hin]]%list_elem_of_fmap. cbn.
      destruct (Hall k'' v1 Hin) as (v2 & Hget2 & _).
      destruct (decide (k'' ∈ dict2.*1)) as [|Hnotin]; [done|].
      apply dict_get_None in Hnotin. congruence.
  - intros Hsame.
    assert (∀ k, k ∈ dict1.*1 ↔ k ∈ dict2.*1) as Hkeys.
    { intros k.
      destruct (decide (k ∈ dict1.*1)) as [Hin1|Hout1];
        destruct (decide (k ∈ dict2.*1)) as [Hin2|Hout2]; try done.
      - apply dict_get_None in Hout2. rewrite <- Hsame in Hout2.
        by apply dict_get_None in Hout2.
      - apply dict_get_None in Hout1. rewrite Hsame in Hout1.
        by apply dict_get_None in Hout1. }
    rewrite bool_decide_eq_true_2
      by (by apply same_keys_same_length).
    apply dicts_loop_return. intros k v1 Hin.
    exists v1. split.
    + rewrite <- Hsame. by apply dict_get_Some.
    + unfold operator_eq. by apply bool_decide_eq_true.
Qed.

(** With a comparison of the caller's, [assert_dicts_equal] returns exactly
    when the two dictionaries have the same keys and the comparison accepts
    the two values under every key. *)
Theorem assert_dicts_equal_custom (values_equal : V → V → bool)
    (dict1 dict2 : list (K * V)) :
  NoDup dict1.*1 → NoDup dict2.*1 →
  assert_dicts_equal fmt_dict fmt_key fmt_value dict1 dict2
    (Some values_equal) = Return tt
  ↔ ∀ k, match dict_get k dict1, dict_get k dict2 with
         | Some v1, Some v2 => values_equal v1 v2 = true
         | None, None => True
         | _, _ => False
         end.
Proof.
  intros Hnodup1 Hnodup2. unfold assert_dicts_equal. cbn. split.
  - case_bool_decide as Hlen; [|done].
    rewrite dicts_loop_return. intros Hall k.
    destruct (dict_get k dict1) as [v1|] eqn:Hget1.
    + apply dict_get_Some in Hget1; [|done].
      by destruct (Hall k v1 Hget1) as (v2 & -> & Heq).
    + destruct (dict_get k dict2) as [v2|] eqn:Hget2; [|done].
      apply dict_get_None in Hget1. apply Hget1.
      apply (keys_included_same_length dict1 dict2); [done..| |].
      * intros k' [[k'' v1] [-> Hin]]%list_elem_of_fmap. cbn.
        destruct (Hall k'' v1 Hin) as (v2' & Hget2' & _).
        destruct (decide (k'' ∈ dict2.*1)) as [|Hnotin]; [done|].
        apply dict_get_None in Hnotin. congruence.
      * destruct (decide (k ∈ dict2.*1)) as [|Hnotin]; [done|].
        apply dict_get_None in Hnotin. congruence.
  - intros Hsame.
    assert (∀ k, k ∈ dict1.*1 ↔ k ∈ dict2.*1) as Hkeys.
    { intros k. specialize (Hsame k).
      destruct (decide (k ∈ dict1.*1)) as [Hin1|Hout1];
        destruct (decide (k ∈ dict2.*1)) as [Hin2|Hout2]; try done.
      - apply dict_get_None in Hout2. rewrite Hout2 in Hsame.
        destruct (dict_get k dict1) eqn:Hget1; [done|].
        by apply dict_get_None in Hget1.
      - apply dict_get_None in Hout1. rewrite Hout1 in Hsame.
        destruct (dict_get k dict2) eqn:Hget2; [done|].
        by apply dict_get_None in Hget2. }
    rewrite bool_decide_eq_true_2
      by (by apply same_keys_same_length).
    apply dicts_loop_return. intros k v1 Hin.
    apply dict_get_Some in Hin; [|done].
    specialize (Hsame k). rewrite Hin in Hsame.
    destruct (dict_get k dict2) as [v2|]; [|done]. by exists v2.
Qed.

End Dicts.
End AssertsFacts.

(** * Properties of the test prompts *)

Module TestPromptsFacts.
Import Py Testing TestPrompts.

Section Facts.
Context `{RM : !RandomModule}.

Lemma get_test_prompts_hit (st : prompt_store) (prompts : list string) :
  _test_prompts st = Some prompts →
  get_test_prompts st = (Return (Some prompts), st).
Proof.
  intros Hcached. destruct st as [g cached]. cbn in Hcached. subst cached.
  reflexivity.
Qed.

Lemma get_test_prompts_miss (st : prompt_store) :
  _test_prompts st = None →
  get_test_prompts st
  = match (get_random_test_text_prompts 16 (Some 50%Z)
             (seeded_state 13910398)).1 with
    | Return prompts =>
        (Return (Some prompts),
         {| rng := rng st; _test_prompts := Some prompts |})
    | Raise e => (Raise e, st)
    end.
Proof.
  intros Hcached. destruct st as [g cached]. cbn in Hcached. subst cached.
  unfold get_test_prompts, mbind, M_bind, bind, gets, on_rng. cbn.
  rewrite TestingFacts.get_frozen_test_text_prompts_run. cbn.
  by destruct (get_random_test_text_prompts 16 (Some 50%Z)
                 (seeded_state 13910398)).1.
Qed.

(** A call to [get_test_prompts] that returns gives a list, never [None],
    and leaves the global generator in the state it found it in; from then
    on every call returns that same list and changes nothing. *)
Theorem get_test_prompts_cached (st : prompt_store)
    (r : option (list string)) :
  (get_test_prompts st).1 = Return r →
  ∃ prompts,
    r = Some prompts
    ∧ rng (get_test_prompts st).2 = rng st
    ∧ _test_prompts (get_test_prompts st).2 = Some prompts
    ∧ get_test_prompts (get_test_prompts st).2
      = (Return (Some prompts), (get_test_prompts st).2).
Proof.
  destruct (_test_prompts st) as [cached|] eqn:Hcached.
  - rewrite (get_test_prompts_hit st cached Hcached). cbn.
    intros [= <-]. exists cached.
    split_and!; try done; by apply get_test_prompts_hit.
  - rewrite (get_test_prompts_miss st Hcached).
    destruct (get_random_test_text_prompts 16 (Some 50%Z)
                (seeded_state 13910398)).1 as [prompts|e]; cbn; [|done].
    intros [= <-]. exists prompts.
    split_and!; try done; by apply get_test_prompts_hit.
Qed.

(** A call to [get_test_prompts] that raises leaves the module as it was:
    nothing is cached and the generator state is put back, so the next call
    starts over. *)
Theorem get_test_prompts_failure (st : prompt_store) (e : exn) :
  (get_test_prompts st).1 = Raise e →
  (get_test_prompts st).2 = st ∧ _test_prompts st = None.
Proof.
  destruct (_test_prompts st) as [cached|] eqn:Hcached.
  - by rewrite (get_test_prompts_hit st cached Hcached).
  - rewrite (get_test_prompts_miss st Hcached).
    by destruct (get_random_test_text_prompts 16 (Some 50%Z)
                   (seeded_state 13910398)).1.
Qed.

(** When [random.sample] draws from the population it is given, every
    prompt that [get_frozen_test_text_prompts] returns for a minimum length
    has at least that length. *)
Theorem frozen_prompts_min_length (num_prompts min_prompt_length : Z)
    (state : rng_state) (prompts : list string) :
  (∀ population k s r s',
     random_sample population k s = (Return r, s') →
     ∀ p, p ∈ r → p ∈ population) →
  (get_frozen_test_text_prompts num_prompts (Some min_prompt_length)
     state).1 = Return prompts →
  ∀ p, p ∈ prompts → (min_prompt_length ≤ Z.of_nat (String.length p))%Z.
Proof.
  intros Hsample.
  rewrite TestingFacts.get_frozen_test_text_prompts_run. cbn.
  unfold get_random_test_text_prompts, mbind, M_bind, bind.
  destruct (load_dataset_text (seeded_state 13910398))
    as [[dataset|e] state1]; [|done].
  destruct (random_sample _ num_prompts state1) as [r state2] eqn:Hrun.
  cbn. intros -> p Hp.
  apply (Hsample _ _ _ _ _ Hrun) in Hp.
  by apply list_elem_of_filter in Hp as [Hlen _].
Qed.

End Facts.

Lemma lcg_sample_from_population (population : list string) (k s : Z)
    (r : list string) (s' : Z) :
  PromptFixture.lcg_sample population k s = (Return r, s') →
  ∀ p, p ∈ r → p ∈ population.
Proof.
  unfold PromptFixture.lcg_sample. case_decide; [|done].
  intros [= <- _] p Hp.
  apply subseteq_take in Hp. by apply elem_of_rotate in Hp.
Qed.

End TestPromptsFacts.

(** * Properties of the debug flag override, the marks and [xfail] *)

Module TestSupportFacts.
Import Py TestSupport.

Lemma for_each_app {S A X} (body : A → X → M S A) (xs1 xs2 : list X)
    (acc : A) (s : S) :
  for_each body (xs1 ++ xs2) acc s
  = match for_each body xs1 acc s with
    | (Return acc', s') => for_each body xs2 acc' s'
    | (Raise e, s') => (Raise e, s')
    end.
Proof.
  revert acc s. induction xs1 as [|x xs1 IH]; intros acc s; [done|].
  cbn [app for_each]. unfold mbind, M_bind, bind.
  destruct (body acc x s) as [[acc'|e] s']; [apply IH|done].
Qed.

Section DebugFlags.
Context {V : Type}.
Variable fmt_value : V → string.
Variable no_attribute : string → string.

Lemma overridden_lookup_notin (items : list (string * V))
    (attrs : gmap string V) (k : string) :
  k ∉ items.*1 → overridden items attrs !! k = attrs !! k.
Proof.
  revert attrs. induction items as [|[k' v'] items IH]; intros attrs Hk;
    [done|].
  cbn in Hk. apply not_elem_of_cons in Hk as [Hne Hk].
  cbn. fold (overridden items (<[k':=v']> attrs)).
  rewrite IH by done. by rewrite lookup_insert_ne.
Qed.

Lemma overridden_lookup_in (items : list (string * V))
    (attrs : gmap string V) (k : string) (v : V) :
  NoDup items.*1 → (k, v) ∈ items → overridden items attrs !! k = Some v.
Proof.
  revert attrs. induction items as [|[k' v'] items IH];
    intros attrs Hnodup Hin.
  - by apply elem_of_nil in Hin.
  - cbn in Hnodup. apply NoDup_cons in Hnodup as [Hk' Hnodup].
    cbn. fold (overridden items (<[k':=v']> attrs)).
    apply elem_of_cons in Hin as [[= -> ->]|Hin].
    + rewrite overridden_lookup_notin by done. apply lookup_insert_eq.
    + by apply IH.
Qed.

Lemma dict_set_fresh (k : string) (v : V) (d : list (string * V)) :
  k ∉ d.*1 → dict_set k v d = d ++ [(k, v)].
Proof.
  induction d as [|[k' v'] d IH]; intros Hk; [done|].
  cbn in Hk. apply not_elem_of_cons in Hk as [Hne Hk].
  cbn. rewrite decide_False by congruence. by rewrite IH.
Qed.

Lemma saved_elem (flag_updates : list (string * V)) (attrs : gmap string V)
    (k : string) (x : V) :
  (k, x) ∈ saved flag_updates attrs
  ↔ k ∈ flag_updates.*1 ∧ attrs !! k = Some x.
Proof.
  unfold saved. rewrite list_elem_of_omap. split.
  - intros ([k' v'] & Hin & Hsome).
    destruct (attrs !! k') as [x'|] eqn:Hget; [|done].
    cbn in Hsome. injection Hsome as -> ->. split; [|done].
    apply list_elem_of_fmap. by exists (k, v').
  - intros [[[k' v'] [-> Hin]]%list_elem_of_fmap Hget].
    exists (k', v'). split; [done|]. cbn in *. by rewrite Hget.
Qed.

Lemma saved_keys (flag_updates : list (string * V)) (attrs : gmap string V)
    (k : string) :
  k ∈ (saved flag_updates attrs).*1 → k ∈ flag_updates.*1.
Proof.
  intros [[k' x] [-> Hin]]%list_elem_of_fmap.
  by apply saved_elem in Hin as [Hin _].
Qed.

Lemma saved_NoDup (flag_updates : list (string * V))
    (attrs : gmap string V) :
  NoDup flag_updates.*1 → NoDup (saved flag_updates attrs).*1.
Proof.
  induction flag_updates as [|[k v] flag_updates IH]; cbn; intros Hnodup.
  - constructor.
  - apply NoDup_cons in Hnodup as [Hk Hnodup].
    fold (saved flag_updates attrs).
    destruct (attrs !! k) as [x|]; cbn; [|by apply IH].
    constructor; [|by apply IH].
    intros Hin. by apply saved_keys in Hin.
Qed.

Lemma saved_insert_notin (flag_updates : list (string * V))
    (attrs : gmap string V) (k : string) (v : V) :
  k ∉ flag_updates.*1 →
  saved flag_updates (<[k:=v]> attrs) = saved flag_updates attrs.
Proof.
  induction flag_updates as [|[k' v'] flag_updates IH]; intros Hk; [done|].
  cbn in Hk. apply not_elem_of_cons in Hk as [Hne Hk].
  cbn. fold (saved flag_updates (<[k:=v]> attrs)).
  fold (saved flag_updates attrs).
  rewrite lookup_insert_ne by done. by rewrite IH.
Qed.

Lemma override_loop_run (flag_updates : list (string * V)) (fr : frame) :
  NoDup flag_updates.*1 →
  (∀ k, k ∈ flag_updates.*1 → k ∉ (restore fr).*1) →
  (∀ k, k ∈ flag_updates.*1 → is_Some (flags (outer fr) !! k)) →
  for_each (override_step fmt_value no_attribute) flag_updates tt fr
  = (Return tt,
     {| outer :=
          {| flags := overridden flag_updates (flags (outer fr));
             stdout := stdout (outer fr) ++ override_lines fmt_value flag_updates |};
        restore := restore fr ++ saved flag_updates (flags (outer fr)) |}).
Proof.
  revert fr.
  induction flag_updates as [|[k v] flag_updates IH];
    intros [[attrs out] saved_items] Hnodup Hfresh Hpresent; cbn in *.
  - unfold ret. by rewrite !app_nil_r.
  - apply NoDup_cons in Hnodup as [Hk Hnodup].
    destruct (Hpresent k) as [x Hx]; [by left|].
    unfold mbind, M_bind, bind, override_step, print, getattr_flags,
      restore_setitem, setattr_flags, modify. cbn.
    rewrite Hx. cbn.
    rewrite dict_set_fresh by (apply Hfresh; by left).
    rewrite IH; cbn.
    + fold (saved flag_updates attrs).
      rewrite saved_insert_notin by done.
      by rewrite <- !app_assoc.
    + done.
    + intros k' Hk'. rewrite fmap_app, elem_of_app. cbn.
      intros [Hin|Hin%list_elem_of_singleton].
      * by apply (Hfresh k'); [right|].
      * by subst k'.
    + intros k' Hk'. destruct (decide (k = k')) as [->|Hne].
      * rewrite lookup_insert_eq. by eexists.
      * rewrite lookup_insert_ne by done. apply Hpresent. by right.
Qed.

Lemma restore_loop_run (items : list (string * V)) (fr : frame) :
  for_each (restore_step fmt_value) items tt fr
  = (Return tt,
     {| outer := {| flags := overridden items (flags (outer fr));
                    stdout := stdout (outer fr) ++ restore_lines fmt_value items |};
        restore := restore fr |}).
Proof.
  revert fr.
  induction items as [|[k v] items IH]; intros [[attrs out] saved_items];
    cbn.
  - unfold ret. by rewrite app_nil_r.
  - unfold mbind, M_bind, bind, restore_step, print, setattr_flags, modify.
    cbn. rewrite IH. cbn. by rewrite <- app_assoc.
Qed.

Lemma override_debug_flags_run {A} (flag_updates : list (string * V))
    (body : M globals A) (g : globals) :
  NoDup flag_updates.*1 →
  (∀ k, k ∈ flag_updates.*1 → is_Some (flags g !! k)) →
  override_debug_flags fmt_value no_attribute flag_updates body g
  = let g1 := {| flags := overridden flag_updates (flags g);
                 stdout := stdout g
                           ++ override_lines fmt_value flag_updates |} in
    ((body g1).1,
     {| flags := overridden (saved flag_updates (flags g))
                            (flags (body g1).2);
        stdout := stdout (body g1).2
                  ++ restore_lines fmt_value
                       (saved flag_updates (flags g)) |}).
Proof.
  intros Hnodup Hpresent.
  unfold override_debug_flags, try_finally, mbind, M_bind, bind.
  rewrite override_loop_run; cbn; [|done| |done].
  - unfold suspended, gets. cbn.
    destruct (body _) as [r g2] eqn:Hbody. cbn.
    rewrite restore_loop_run. cbn. by destruct r.
  - intros k _. apply not_elem_of_nil.
Qed.

(** When every flag to override exists, the body of the [with] statement
    runs with exactly those flags set to the new values, its result or its
    exception is that of the statement, and afterwards every overridden flag
    has the value it had before the statement while the other flags are as
    the body left them.  A body that leaves the flags alone therefore
    leaves them as they were before the statement. *)
Theorem override_debug_flags_restores {A}
    (flag_updates : list (string * V)) (body : M globals A) (g : globals) :
  NoDup flag_updates.*1 →
  (∀ k, k ∈ flag_updates.*1 → is_Some (flags g !! k)) →
  ∃ g1,
    (∀ k v, (k, v) ∈ flag_updates → flags g1 !! k = Some v)
    ∧ (∀ k, k ∉ flag_updates.*1 → flags g1 !! k = flags g !! k)
    ∧ (override_debug_flags fmt_value no_attribute flag_updates body g).1
      = (body g1).1
    ∧ (∀ k, k ∈ flag_updates.*1 →
         flags (override_debug_flags fmt_value no_attribute flag_updates
                  body g).2 !! k
         = flags g !! k)
    ∧ (∀ k, k ∉ flag_updates.*1 →
         flags (override_debug_flags fmt_value no_attribute flag_updates
                  body g).2 !! k
         = flags (body g1).2 !! k)
    ∧ (flags (body g1).2 = flags g1 →
       flags (override_debug_flags fmt_value no_attribute flag_updates
                body g).2
       = flags g).
Proof.
  intros Hnodup Hpresent.
  rewrite override_debug_flags_run by done. cbn zeta.
  set (g1 := {| flags := overridden flag_updates (flags g);
                stdout := stdout g
                          ++ override_lines fmt_value flag_updates |}).
  assert (∀ attrs k, k ∈ flag_updates.*1 →
            overridden (saved flag_updates (flags g)) attrs !! k
            = flags g !! k) as Hback.
  { intros attrs k Hk. destruct (Hpresent k Hk) as [x Hx]. rewrite Hx.
    apply overridden_lookup_in; [by apply saved_NoDup|].
    by apply saved_elem. }
  assert (∀ attrs k, k ∉ flag_updates.*1 →
            overridden (saved flag_updates (flags g)) attrs !! k
            = attrs !! k) as Hkeep.
  { intros attrs k Hk. apply overridden_lookup_notin.
    intros Hin. by apply saved_keys in Hin. }
  exists g1. cbn. split_and!.
  - intros k v Hin. by apply overridden_lookup_in.
  - intros k Hk. by apply overridden_lookup_notin.
  - done.
  - intros k Hk. by apply Hback.
  - intros k Hk. by apply Hkeep.
  - intros Hbody. apply map_eq. intros k.
    destruct (decide (k ∈ flag_updates.*1)) as [Hk|Hk].
    + by apply Hback.
    + rewrite Hkeep by done. rewrite Hbody. cbn.
      by apply overridden_lookup_notin.
Qed.

(** When a flag to override does not exist while all the flags before it
    in the updates do, the statement raises the [AttributeError] of that
    flag without running its body, and the flags end as they were: the
    flags already overridden are put back. *)
Theorem override_debug_flags_unknown_flag {A}
    (before after : list (string * V)) (k : string) (v : V)
    (body : M globals A) (g : globals) :
  NoDup before.*1 →
  (∀ k', k' ∈ before.*1 → is_Some (flags g !! k')) →
  flags g !! k = None →
  override_debug_flags fmt_value no_attribute (before ++ (k, v) :: after)
    body g
  = (Raise (ExternalError "AttributeError" (no_attribute k)),
     {| flags := flags g;
        stdout := stdout g
                  ++ override_lines fmt_value (before ++ [(k, v)])
                  ++ restore_lines fmt_value (saved before (flags g)) |}).
Proof.
  intros Hnodup Hpresent Hmissing.
  assert (k ∉ before.*1) as Hk.
  { intros Hin. destruct (Hpresent k Hin) as [x Hx]. congruence. }
  unfold override_debug_flags, try_finally, mbind, M_bind, bind.
  rewrite for_each_app.
  rewrite override_loop_run; cbn; [|done| |done].
  2:{ intros k' _. apply not_elem_of_nil. }
  unfold mbind, M_bind, bind, override_step, print, getattr_flags, modify.
  cbn. rewrite overridden_lookup_notin by done. rewrite Hmissing. cbn.
  unfold gets. cbn. rewrite restore_loop_run. cbn.
  f_equal. f_equal.
  - apply map_eq. intros k'.
    destruct (decide (k' ∈ before.*1)) as [Hk'|Hk'].
    + destruct (Hpresent k' Hk') as [x Hx]. rewrite Hx.
      apply overridden_lookup_in; [by apply saved_NoDup|].
      by apply saved_elem.
    + rewrite overridden_lookup_notin
        by (intros Hin; by apply saved_keys in Hin).
      by apply overridden_lookup_notin.
  - unfold override_lines. rewrite fmap_app. cbn.
    by rewrite <- !app_assoc.
Qed.

End DebugFlags.

(** The condition of the [is_cpu_win] mark is the boolean
    [platform == "win32"]: the [and] of a non-empty string and a boolean is
    the boolean, so the target device is never looked at, unlike in
    [is_cpu], whose condition is the string that pytest evaluates. *)
Theorem is_cpu_win_ignores_device (platform : string) :
  is_cpu_win_skipif platform = CondBool (bool_decide (platform = "win32"))
  ∧ (truthy (is_cpu_win_skipif platform) = true ↔ platform = "win32")
  ∧ is_cpu_skipif = CondStr is_not_cpu_condition.
Proof.
  split_and!; [reflexivity| |reflexivity].
  change (is_cpu_win_skipif platform)
    with (CondBool (bool_decide (platform = "win32"))).
  cbn. apply bool_decide_eq_true.
Qed.

(** [is_iree_hal_target_device_cpu] accepts exactly the device names that
    begin with [local], whatever follows, and the name [llvm-cpu] itself. *)
Theorem is_iree_hal_target_device_cpu_spec (v : string) :
  is_iree_hal_target_device_cpu v = true
  ↔ (∃ rest, v = "local" +:+ rest) ∨ v = "llvm-cpu".
Proof.
  unfold is_iree_hal_target_device_cpu.
  rewrite orb_true_iff, bool_decide_eq_true. split.
  - intros [Hstart|Heq]; [left|by right].
    by apply SpecBuilderFacts.startswith_inv.
  - intros [[rest ->]|Heq]; [left|by right].
    apply SpecBuilderFacts.startswith_append.
Qed.

Section Xfail.
Context {S A : Type}.
Variable is_Exception : exn → bool.
Variable str_exn : exn → string.
Variable re_search : string → string → outcome bool.

(** The wrapper of [xfail] never turns a failure into a success: when the
    test returns, the wrapper returns the same value; when the test raises,
    the wrapper raises; and the store is the one the test left. *)
Theorem xfail_wrapper_never_swallows (condition : option condition)
    (pattern : option string) (test_fn : M S A) (s : S) :
  (xfail_wrapper is_Exception str_exn re_search condition pattern test_fn
     s).2 = (test_fn s).2
  ∧ match (test_fn s).1 with
    | Return a =>
        (xfail_wrapper is_Exception str_exn re_search condition pattern
           test_fn s).1 = Return a
    | Raise _ =>
        ∃ e, (xfail_wrapper is_Exception str_exn re_search condition pattern
                test_fn s).1 = Raise e
    end.
Proof.
  unfold xfail_wrapper.
  destruct (test_fn s) as [[a|ex] s']; cbn; [done|].
  destruct (is_Exception ex); [|by eauto].
  destruct (reraise_test _ _ _ _ _) as [[|]|e]; cbn; eauto.
Qed.

(** With a false condition, or without a pattern and with a condition that
    is not a string, the wrapper behaves as the test itself: the pattern
    is not consulted and the test's own exception comes out. *)
Theorem xfail_wrapper_transparent (pattern : option string)
    (test_fn : M S A) (s : S) :
  xfail_wrapper is_Exception str_exn re_search (Some (CondBool false))
    pattern test_fn s = test_fn s
  ∧ xfail_wrapper is_Exception str_exn re_search (Some (CondBool true))
      None test_fn s = test_fn s
  ∧ xfail_wrapper is_Exception str_exn re_search None None test_fn s
    = test_fn s.
Proof.
  unfold xfail_wrapper, reraise_test.
  destruct (test_fn s) as [[a|ex] s']; cbn; [done|].
  by destruct (is_Exception ex).
Qed.

(** With a condition that holds and a pattern, a test that raises an
    [Exception] whose text the pattern does not match ends in the failure
    of [pytest.fail], which names the text and the pattern; when the
    pattern matches, the test's own exception comes out. *)
Theorem xfail_wrapper_pattern (pattern : string) (test_fn : M S A) (s : S)
    (ex : exn) (found : bool) :
  (test_fn s).1 = Raise ex →
  is_Exception ex = true →
  re_search pattern (str_exn ex) = Return found →
  (xfail_wrapper is_Exception str_exn re_search None (Some pattern) test_fn
     s).1
  = if found then Raise ex
    else Raise (ExternalError "pytest.fail"
                  ("Failed to match error " +:+ dquote +:+ str_exn ex
                     +:+ dquote +:+ " against expected match " +:+ dquote
                     +:+ pattern +:+ dquote)).
Proof.
  intros Htest Hexc Hsearch. unfold xfail_wrapper, reraise_test.
  destruct (test_fn s) as [r s']. cbn in Htest. subst r. cbn.
  rewrite Hexc, Hsearch. by destruct found.
Qed.

(** With a string condition, a test that raises an [Exception] ends in the
    [NotImplementedError] of [_eval_condition], whatever the pattern; a
    test that returns is not affected. *)
Theorem xfail_wrapper_string_condition (text : string)
    (pattern : option string) (test_fn : M S A) (s : S) (ex : exn) :
  (test_fn s).1 = Raise ex →
  is_Exception ex = true →
  (xfail_wrapper is_Exception str_exn re_search (Some (CondStr text))
     pattern test_fn s).1
  = Raise (ExternalError "NotImplementedError"
             "TODO: implement string condition evaluation the same way as in pytest").
Proof.
  intros Htest Hexc. unfold xfail_wrapper, reraise_test.
  destruct (test_fn s) as [r s']. cbn in Htest. subst r. cbn.
  by rewrite Hexc.
Qed.

End Xfail.
End TestSupportFacts.

(** * The theorems of the last sections at sample inputs *)

Module MoreWitnesses.
Import Py SpecBuilder Testing TestPrompts Asserts TestSupport.


Lemma warnings_count_repeated_uses_witness :
  root_attr_ok (live_op (Fixture.fresh_world Fixture.square_op))
  ∧ (warnings (build_td_spec tt Fixture.tile_and_vector "match_op"
                 (Fixture.fresh_world Fixture.square_op)).2
     = warnings (Fixture.fresh_world Fixture.square_op)
       ++ replicate
            (length (operands
                       (live_op (Fixture.fresh_world Fixture.square_op)))
             - size (list_to_set
                       (operands
                          (live_op (Fixture.fresh_world Fixture.square_op)))
                     : gset Value))
            REPEATED_OPERAND_WARNING
     ∧ (warnings (build_td_spec tt Fixture.tile_and_vector "match_op"
                    (Fixture.fresh_world Fixture.square_op)).2
        = warnings (Fixture.fresh_world Fixture.square_op)
        ↔ NoDup (operands
                   (live_op (Fixture.fresh_world Fixture.square_op))))).
Proof.
  split; [right; reflexivity|].
  apply (SpecBuilderMoreFacts.warnings_count_repeated_uses
           (IR := Fixture.bindings) tt Fixture.tile_and_vector "match_op"
           (Fixture.fresh_world Fixture.square_op)).
  right. reflexivity.
Defined.

Lemma second_call_same_operation_witness :
  root_attr_ok (live_op (Fixture.fresh_world Fixture.marked_op))
  ∧ ((build_td_spec tt Fixture.twice_x "second"
        (build_td_spec tt Fixture.tile_and_vector "first"
           (Fixture.fresh_world Fixture.marked_op)).2).1
     = (build_td_spec tt Fixture.twice_x "second"
          (Fixture.fresh_world Fixture.marked_op)).1
     ∧ live_op
         (build_td_spec tt Fixture.twice_x "second"
            (build_td_spec tt Fixture.tile_and_vector "first"
               (Fixture.fresh_world Fixture.marked_op)).2).2
       = live_op (Fixture.fresh_world Fixture.marked_op)).
Proof.
  split; [right; reflexivity|].
  apply (SpecBuilderMoreFacts.second_call_same_operation
           (IR := Fixture.bindings) tt tt Fixture.tile_and_vector
           Fixture.twice_x "first" "second"
           (Fixture.fresh_world Fixture.marked_op)).
  right. reflexivity.
Defined.

Lemma marker_does_not_show_witness :
  attributes Fixture.marked_op !! ROOT_OP_ATTR_NAME = Some UnitAttr
  ∧ (build_td_spec tt Fixture.tile_and_vector "match_op"
       {| live_op := Fixture.marked_op; warnings := [] |}).1
    = (build_td_spec tt Fixture.tile_and_vector "match_op"
         {| live_op := strip_root_attr Fixture.marked_op;
            warnings := [] |}).1.
Proof.
  split; [reflexivity|].
  apply (SpecBuilderMoreFacts.marker_does_not_show (IR := Fixture.bindings)
           tt Fixture.tile_and_vector "match_op" Fixture.marked_op []).
  reflexivity.
Defined.

Lemma empty_config_list_dangling_comma_witness :
  root_attr_ok (live_op (Fixture.fresh_world Fixture.marked_op))
  ∧ ∃ bbargs_str root_operation text,
      text = spec_text_template "" "" "match_op" "!transform.any_op"
               bbargs_str root_operation "" "%cont"
      ∧ build_td_spec tt [] "match_op"
          (Fixture.fresh_world Fixture.marked_op)
        = Module_parse text tt
            (world_after (Fixture.fresh_world Fixture.marked_op))
      ∧ contains
          "@apply_op_config(%op: !transform.any_op {transform.readonly}, ) {"
          text = true.
Proof.
  split; [right; reflexivity|].
  apply (SpecBuilderMoreFacts.empty_config_list_dangling_comma
           (IR := Fixture.bindings) tt "match_op"
           (Fixture.fresh_world Fixture.marked_op)).
  right. reflexivity.
Defined.


Lemma assert_iterables_equal_first_mismatch_witness :
  [1; 2; 3] !! 1 = Some 2
  ∧ [1; 5] !! 1 = Some 5
  ∧ Nat.eqb 2 5 = false
  ∧ (∀ j x y, j < 1 → [1; 2; 3] !! j = Some x → [1; 5] !! j = Some y →
              Nat.eqb x y = true)
  ∧ assert_iterables_equal pretty [1; 2; 3] [1; 5] (Some Nat.eqb)
    = Raise (AssertionError
               ("Iterables not equal at index " +:+ str_nat 1
                  +:+ " for elements " +:+ pretty 2 +:+ " and "
                  +:+ pretty 5)).
Proof.
  assert (∀ j x y, j < 1 → [1; 2; 3] !! j = Some x → [1; 5] !! j = Some y →
                   Nat.eqb x y = true) as Hbefore.
  { intros [|j] x y Hj; [|lia]. by intros [= <-] [= <-]. }
  split_and!; [reflexivity|reflexivity|reflexivity|exact Hbefore|].
  apply (AssertsFacts.assert_iterables_equal_first_mismatch pretty Nat.eqb
           [1; 2; 3] [1; 5] 1 2 5);
    [reflexivity|reflexivity|reflexivity|exact Hbefore].
Defined.

Lemma assert_iterables_equal_length_mismatch_witness :
  Forall2 (λ a b, Nat.eqb a b = true) [1; 2] [1; 2]
  ∧ (assert_iterables_equal pretty ([1; 2] ++ 3 :: []) [1; 2] (Some Nat.eqb)
     = Raise (ValueError "zip() argument 2 is shorter than argument 1")
     ∧ assert_iterables_equal pretty [1; 2] ([1; 2] ++ 3 :: [])
         (Some Nat.eqb)
       = Raise (ValueError "zip() argument 2 is longer than argument 1")).
Proof.
  assert (Forall2 (λ a b, Nat.eqb a b = true) [1; 2] [1; 2]) as Hall
    by (repeat constructor).
  split; [exact Hall|].
  apply (AssertsFacts.assert_iterables_equal_length_mismatch pretty Nat.eqb
           [1; 2] [1; 2] 3 []).
  exact Hall.
Defined.

Lemma assert_dicts_equal_returns_witness :
  NoDup [("a", 1); ("b", 2)].*1
  ∧ NoDup [("b", 2); ("a", 1)].*1
  ∧ (assert_dicts_equal (λ _, "{...}") (λ k : string, k) pretty
       [("a", 1); ("b", 2)] [("b", 2); ("a", 1)] None = Return tt
     ↔ ∀ k, dict_get k [("a", 1); ("b", 2)]
            = dict_get k [("b", 2); ("a", 1)]).
Proof.
  assert (NoDup [("a", 1); ("b", 2)].*1) as Hnodup1 by compute_done.
  assert (NoDup [("b", 2); ("a", 1)].*1) as Hnodup2 by compute_done.
  split_and!; [exact Hnodup1|exact Hnodup2|].
  apply (AssertsFacts.assert_dicts_equal_returns (λ _, "{...}")
           (λ k : string, k) pretty [("a", 1); ("b", 2)]
           [("b", 2); ("a", 1)] Hnodup1 Hnodup2).
Defined.

Lemma assert_dicts_equal_custom_witness :
  NoDup [("a", 1); ("b", 2)].*1
  ∧ NoDup [("b", 4); ("a", 3)].*1
  ∧ (assert_dicts_equal (λ _, "{...}") (λ k : string, k) pretty
       [("a", 1); ("b", 2)] [("b", 4); ("a", 3)]
       (Some (λ x y, Nat.eqb (x mod 2) (y mod 2))) = Return tt
     ↔ ∀ k, match dict_get k [("a", 1); ("b", 2)],
                  dict_get k [("b", 4); ("a", 3)] with
            | Some v1, Some v2 => Nat.eqb (v1 mod 2) (v2 mod 2) = true
            | None, None => True
            | _, _ => False
            end).
Proof.
  assert (NoDup [("a", 1); ("b", 2)].*1) as Hnodup1 by compute_done.
  assert (NoDup [("b", 4); ("a", 3)].*1) as Hnodup2 by compute_done.
  split_and!; [exact Hnodup1|exact Hnodup2|].
  apply (AssertsFacts.assert_dicts_equal_custom (λ _, "{...}")
           (λ k : string, k) pretty (λ x y, Nat.eqb (x mod 2) (y mod 2))
           [("a", 1); ("b", 2)] [("b", 4); ("a", 3)] Hnodup1 Hnodup2).
Defined.

Lemma get_test_prompts_cached_witness :
  (get_test_prompts LongPromptFixture.fresh_store).1
  = Return (Some (LongPromptFixture.paragraph <$> seq 5 15 ++ [0]))
  ∧ ∃ prompts,
      Some (LongPromptFixture.paragraph <$> seq 5 15 ++ [0]) = Some prompts
      ∧ rng (get_test_prompts LongPromptFixture.fresh_store).2
        = rng LongPromptFixture.fresh_store
      ∧ _test_prompts (get_test_prompts LongPromptFixture.fresh_store).2
        = Some prompts
      ∧ get_test_prompts (get_test_prompts LongPromptFixture.fresh_store).2
        = (Return (Some prompts),
           (get_test_prompts LongPromptFixture.fresh_store).2).
Proof.
  split; [vm_compute; reflexivity|].
  apply (TestPromptsFacts.get_test_prompts_cached
           (RM := LongPromptFixture.random_module)
           LongPromptFixture.fresh_store).
  vm_compute. reflexivity.
Defined.

Lemma get_test_prompts_failure_witness :
  (get_test_prompts LongPromptFixture.small_store).1
  = Raise (ValueError "Sample larger than population or is negative")
  ∧ ((get_test_prompts LongPromptFixture.small_store).2
     = LongPromptFixture.small_store
     ∧ _test_prompts LongPromptFixture.small_store = None).
Proof.
  split; [vm_compute; reflexivity|].
  apply (TestPromptsFacts.get_test_prompts_failure
           (RM := PromptFixture.random_module)
           LongPromptFixture.small_store
           (ValueError "Sample larger than population or is negative")).
  vm_compute. reflexivity.
Defined.

Lemma frozen_prompts_min_length_witness :
  (∀ population k s r s',
     random_sample (RandomModule := PromptFixture.random_module)
       population k s = (Return r, s') →
     ∀ p, p ∈ r → p ∈ population)
  ∧ (get_frozen_test_text_prompts (RM := PromptFixture.random_module)
       2 (Some 10%Z) 42%Z).1
    = Return
        [ " Robert Boulter is an English film , television and theatre actor . ";
          " In 2006 , Boulter starred alongside Whishaw in the play Citizenship . " ]
  ∧ ∀ p,
      p ∈ [ " Robert Boulter is an English film , television and theatre actor . ";
            " In 2006 , Boulter starred alongside Whishaw in the play Citizenship . " ] →
      (10 ≤ Z.of_nat (String.length p))%Z.
Proof.
  split_and!;
    [exact TestPromptsFacts.lcg_sample_from_population
    |vm_compute; reflexivity|].
  apply (TestPromptsFacts.frozen_prompts_min_length
           (RM := PromptFixture.random_module) 2 10 42%Z).
  - exact TestPromptsFacts.lcg_sample_from_population.
  - vm_compute. reflexivity.
Defined.

Lemma override_debug_flags_restores_witness :
  NoDup [("trace_level", 2)].*1
  ∧ (∀ k, k ∈ [("trace_level", 2)].*1 →
          is_Some (flags SupportFixture.debug_globals !! k))
  ∧ ∃ g1,
      (∀ k v, (k, v) ∈ [("trace_level", 2)] → flags g1 !! k = Some v)
      ∧ (∀ k, k ∉ [("trace_level", 2)].*1 →
              flags g1 !! k = flags SupportFixture.debug_globals !! k)
      ∧ (override_debug_flags pretty SupportFixture.no_attribute
           [("trace_level", 2)] SupportFixture.read_trace_level
           SupportFixture.debug_globals).1
        = (SupportFixture.read_trace_level g1).1
      ∧ (∀ k, k ∈ [("trace_level", 2)].*1 →
           flags (override_debug_flags pretty SupportFixture.no_attribute
                    [("trace_level", 2)] SupportFixture.read_trace_level
                    SupportFixture.debug_globals).2 !! k
           = flags SupportFixture.debug_globals !! k)
      ∧ (∀ k, k ∉ [("trace_level", 2)].*1 →
           flags (override_debug_flags pretty SupportFixture.no_attribute
                    [("trace_level", 2)] SupportFixture.read_trace_level
                    SupportFixture.debug_globals).2 !! k
           = flags (SupportFixture.read_trace_level g1).2 !! k)
      ∧ (flags (SupportFixture.read_trace_level g1).2 = flags g1 →
         flags (override_debug_flags pretty SupportFixture.no_attribute
                  [("trace_level", 2)] SupportFixture.read_trace_level
                  SupportFixture.debug_globals).2
         = flags SupportFixture.debug_globals).
Proof.
  assert (NoDup [("trace_level", 2)].*1) as Hnodup
    by (apply NoDup_singleton).
  assert (∀ k, k ∈ [("trace_level", 2)].*1 →
               is_Some (flags SupportFixture.debug_globals !! k))
    as Hpresent.
  { intros k ->%list_elem_of_singleton. by exists 0. }
  split_and!; [exact Hnodup|exact Hpresent|].
  apply (TestSupportFacts.override_debug_flags_restores pretty
           SupportFixture.no_attribute [("trace_level", 2)]
           SupportFixture.read_trace_level SupportFixture.debug_globals
           Hnodup Hpresent).
Defined.

Lemma override_debug_flags_unknown_flag_witness :
  NoDup [("trace_level", 2)].*1
  ∧ (∀ k', k' ∈ [("trace_level", 2)].*1 →
           is_Some (flags SupportFixture.debug_globals !! k'))
  ∧ flags SupportFixture.debug_globals !! "verbose" = None
  ∧ override_debug_flags pretty SupportFixture.no_attribute
      ([("trace_level", 2)] ++ ("verbose", 1) :: [("max_items", 9)])
      SupportFixture.read_trace_level SupportFixture.debug_globals
    = (Raise (ExternalError "AttributeError"
                (SupportFixture.no_attribute "verbose")),
       {| flags := flags SupportFixture.debug_globals;
          stdout := stdout SupportFixture.debug_globals
                    ++ override_lines pretty
                         ([("trace_level", 2)] ++ [("verbose", 1)])
                    ++ restore_lines pretty
                         (saved [("trace_level", 2)]
                            (flags SupportFixture.debug_globals)) |}).
Proof.
  assert (NoDup [("trace_level", 2)].*1) as Hnodup
    by (apply NoDup_singleton).
  assert (∀ k', k' ∈ [("trace_level", 2)].*1 →
                is_Some (flags SupportFixture.debug_globals !! k'))
    as Hpresent.
  { intros k ->%list_elem_of_singleton. by exists 0. }
  split_and!; [exact Hnodup|exact Hpresent|reflexivity|].
  apply (TestSupportFacts.override_debug_flags_unknown_flag pretty
           SupportFixture.no_attribute [("trace_level", 2)]
           [("max_items", 9)] "verbose" 1 SupportFixture.read_trace_level
           SupportFixture.debug_globals Hnodup Hpresent).
  reflexivity.
Defined.

Lemma xfail_wrapper_pattern_witness :
  (SupportFixture.failing_test tt).1
  = Raise (ValueError "shape mismatch in matmul")
  ∧ SupportFixture.every_exn (ValueError "shape mismatch in matmul") = true
  ∧ SupportFixture.substring_search "out of memory"
      (SupportFixture.exn_text (ValueError "shape mismatch in matmul"))
    = Return false
  ∧ (xfail_wrapper SupportFixture.every_exn SupportFixture.exn_text
       SupportFixture.substring_search None (Some "out of memory")
       SupportFixture.failing_test tt).1
    = Raise (ExternalError "pytest.fail"
               ("Failed to match error " +:+ dquote
                  +:+ SupportFixture.exn_text
                        (ValueError "shape mismatch in matmul")
                  +:+ dquote +:+ " against expected match " +:+ dquote
                  +:+ "out of memory" +:+ dquote)).
Proof.
  split_and!; [reflexivity|reflexivity|vm_compute; reflexivity|].
  apply (TestSupportFacts.xfail_wrapper_pattern SupportFixture.every_exn
           SupportFixture.exn_text SupportFixture.substring_search
           "out of memory" SupportFixture.failing_test tt
           (ValueError "shape mismatch in matmul") false);
    [reflexivity|reflexivity|vm_compute; reflexivity].
Defined.

Lemma xfail_wrapper_string_condition_witness :
  (SupportFixture.failing_test tt).1
  = Raise (ValueError "shape mismatch in matmul")
  ∧ SupportFixture.every_exn (ValueError "shape mismatch in matmul") = true
  ∧ (xfail_wrapper SupportFixture.every_exn SupportFixture.exn_text
       SupportFixture.substring_search
       (Some (CondStr "sys.platform == 'win32'")) None
       SupportFixture.failing_test tt).1
    = Raise (ExternalError "NotImplementedError"
               "TODO: implement string condition evaluation the same way as in pytest").
Proof.
  split_and!; [reflexivity|reflexivity|].
  apply (TestSupportFacts.xfail_wrapper_string_condition
           SupportFixture.every_exn SupportFixture.exn_text
           SupportFixture.substring_search "sys.platform == 'win32'" None
           SupportFixture.failing_test tt
           (ValueError "shape mismatch in matmul"));
    reflexivity.
Defined.

(** The flags during and after the sample statement. *)
Example override_debug_flags_sample :
  override_debug_flags pretty SupportFixture.no_attribute
    [("trace_level", 2)] SupportFixture.read_trace_level
    SupportFixture.debug_globals
  = (Return 2,
     {| flags := flags SupportFixture.debug_globals;
        stdout := [ "Overriding debug flag trace_level = 2"; "body";
                    "Restoring debug flag trace_level = 0" ] |}).
Proof. vm_compute. reflexivity. Qed.

End MoreWitnesses.
